(** * rkllm-toolkit-cli: the conversion pipeline and its command-line driver

    A shallow embedding of [src/rkllm_toolkit_cli/__init__.py]:
    - [RKLLMRemotePipeline]: [mkpath], [build_vars], [remote_pipeline_to_local];
    - [HubHelpers]: [repo_check], [login_to_hf], [build_card], [upload_to_repo];
    - the [convert] command with its validation and its three nested loops.

    Python values are modelled by [pyval], exceptions by [exn], the calls
    into the operating system, the HuggingFace hub and the RKLLM engine by
    [call]; a [World] answers each call from the calls made before it. *)

From Stdlib Require Import PrimFloat.
From Stdlib Require Import Ascii String.
From stdpp Require Import base gmap sets list strings pretty.

Local Open Scope string_scope.
Local Open Scope Z_scope.

(** ** Python values *)

(** The values the program handles: [None], booleans, integers, strings. *)
Inductive pyval : Type :=
| PyNone
| PyBool (b : bool)
| PyInt (z : Z)
| PyStr (s : string).

#[global] Instance pyval_eq_dec : EqDecision pyval.
Proof. solve_decision. Defined.

(** [str(v)], which is also what an f-string field [{v}] produces. *)
Definition py_str (v : pyval) : string :=
  match v with
  | PyNone => "None"
  | PyBool true => "True"
  | PyBool false => "False"
  | PyInt z => pretty z
  | PyStr s => s
  end.

(** [a == b]: booleans compare as the integers 0 and 1. *)
Definition py_eq (a b : pyval) : bool :=
  match a, b with
  | PyNone, PyNone => true
  | PyStr s, PyStr t => String.eqb s t
  | PyInt x, PyInt y => Z.eqb x y
  | PyBool x, PyBool y => Bool.eqb x y
  | PyBool x, PyInt y | PyInt y, PyBool x => Z.eqb (if x then 1 else 0) y
  | _, _ => false
  end.

(** [type(v).__name__] *)
Definition py_type_name (v : pyval) : string :=
  match v with
  | PyNone => "NoneType"
  | PyBool _ => "bool"
  | PyInt _ => "int"
  | PyStr _ => "str"
  end.

Definition nl : string := String "010"%char EmptyString.

(** [s.split("/", 1)]: at most one split, at the first slash. *)
Fixpoint split_slash_1 (s : string) : list string :=
  match s with
  | EmptyString => [EmptyString]
  | String c t =>
      if Ascii.eqb c "/"%char then [EmptyString; t]
      else match split_slash_1 t with
           | h :: r => String c h :: r
           | [] => []
           end
  end.

(** [s.upper()] on the ASCII letters. *)
Definition upper_ascii (c : ascii) : ascii :=
  let n := nat_of_ascii c in
  if (Nat.leb 97 n && Nat.leb n 122)%bool then ascii_of_nat (n - 32) else c.

Fixpoint str_upper (s : string) : string :=
  match s with
  | EmptyString => EmptyString
  | String c t => String (upper_ascii c) (str_upper t)
  end.

(** ** Exceptions *)

(** The exception classes the program raises or names in an [except]
    clause.  A subclass of [RuntimeError] counts as [RuntimeError];
    [OtherException] is any further subclass of [Exception] (an [OSError],
    an HTTP error of the hub client, ...); [BaseExceptionOnly] is a
    [BaseException] that is no [Exception] ([KeyboardInterrupt], ...). *)
Inductive exn_class : Type :=
| RuntimeError
| RuntimeWarning
| AssertionError
| ValueError
| IndexError
| AttributeError
| GatedRepoError
| RepositoryNotFoundError
| OtherException (name : string)
| BaseExceptionOnly (name : string).

#[global] Instance exn_class_eq_dec : EqDecision exn_class.
Proof. solve_decision. Defined.

(** An exception with [str(e)] as its message. *)
Record exn : Type := Exn { exn_cls : exn_class; exn_msg : string }.

#[global] Instance exn_eq_dec : EqDecision exn.
Proof. solve_decision. Defined.

Definition is_RuntimeError (e : exn) : bool :=
  match exn_cls e with RuntimeError => true | _ => false end.

Definition is_RuntimeWarning (e : exn) : bool :=
  match exn_cls e with RuntimeWarning => true | _ => false end.

Definition is_GatedRepoError (e : exn) : bool :=
  match exn_cls e with GatedRepoError => true | _ => false end.

(** [GatedRepoError] is a subclass of [RepositoryNotFoundError]. *)
Definition is_RepositoryNotFoundError (e : exn) : bool :=
  match exn_cls e with
  | RepositoryNotFoundError | GatedRepoError => true
  | _ => false
  end.

(** [except Exception]. *)
Definition is_Exception (e : exn) : bool :=
  match exn_cls e with BaseExceptionOnly _ => false | _ => true end.

(** A bare [except:]. *)
Definition any_exn (e : exn) : bool := true.

(** ** RKLLMRemotePipeline: construction and name resolution *)

(** The attributes [__init__] stores. *)
Record Request : Type := mkRequest {
  model_id : string;
  lora_id : pyval;
  platform : string;
  qtype : string;
  hybrid_rate : string;
  library_type : string;
  optimization : Z
}.

(** The object after [build_vars].  An attribute that may still be unset
    is an [option]: [npu_cores] (set for the two known platforms only),
    [lorapath] (set by [build_vars] only without a LoRA), [modelpath]
    (set by the download). *)
Record Pipeline : Type := mkPipeline {
  req : Request;
  npu_cores : option nat;
  dataset : pyval;
  qparams : pyval;
  device : string;
  model_name : string;
  model_dir : string;
  name_suffix : string;
  lora_name : pyval;
  lora_dir : pyval;
  lorapath : option pyval;
  export_name : string;
  export_path : string;
  rkllm_version : string;
  modelpath : option pyval
}.

(** [s.split("/", 1)[1]] *)
Definition split_slash_1_snd (s : string) : exn + string :=
  match split_slash_1 s !! 1%nat with
  | Some t => inr t
  | None => inl (Exn IndexError "list index out of range")
  end.

(** [RKLLMRemotePipeline.build_vars] *)
Definition build_vars (r : Request) : exn + Pipeline :=
  let npu_cores :=
    if String.eqb (platform r) "rk3588" then Some 3%nat
    else if String.eqb (platform r) "rk3576" then Some 2%nat
    else None in
  match split_slash_1_snd (model_id r) with
  | inl e => inl e
  | inr model_name =>
      let model_dir := "./models/" +:+ model_name +:+ "/" in
      let name_suffix :=
        platform r +:+ "-" +:+ qtype r +:+ "-opt-" +:+ pretty (optimization r)
        +:+ "-hybrid-ratio-" +:+ hybrid_rate r in
      if py_eq (lora_id r) (PyStr "") then
        inr {| req := r; npu_cores := npu_cores; dataset := PyNone;
               qparams := PyNone; device := "cpu";
               model_name := model_name; model_dir := model_dir;
               name_suffix := name_suffix;
               lora_name := PyNone; lora_dir := PyNone;
               lorapath := Some PyNone;
               export_name := model_name +:+ "-" +:+ name_suffix;
               export_path :=
                 "./models/" +:+ model_name +:+ "-" +:+ platform r +:+ "/";
               rkllm_version := "1.1.4"; modelpath := None |}
      else
        match lora_id r with
        | PyStr l =>
            match split_slash_1_snd l with
            | inl e => inl e
            | inr lora_name =>
                inr {| req := r; npu_cores := npu_cores; dataset := PyNone;
                       qparams := PyNone; device := "cpu";
                       model_name := model_name; model_dir := model_dir;
                       name_suffix := name_suffix;
                       lora_name := PyStr lora_name;
                       lora_dir := PyStr ("./models/" +:+ lora_name +:+ "/");
                       lorapath := None;
                       export_name :=
                         model_name +:+ "-" +:+ lora_name +:+ "-"
                         +:+ name_suffix;
                       export_path :=
                         "./models/" +:+ model_name +:+ "-" +:+ lora_name
                         +:+ "-" +:+ platform r +:+ "/";
                       rkllm_version := "1.1.4"; modelpath := None |}
            end
        | v =>
            inl (Exn AttributeError
                   ("'" +:+ py_type_name v
                    +:+ "' object has no attribute 'split'"))
        end
  end.

(** ** The outside world *)

(** The calls that leave the program, with their arguments. *)
Inductive call : Type :=
| os_makedirs (path : string)
| os_environ_get (key : string)
| os_environ_set (key value : string)
| file_read (path : string)
| inquirer_prompt (message : string)
| snapshot_download (repo_id local_dir : pyval)
| import_rkllm_api
| RKLLM_new
| load_huggingface (model model_lora : pyval) (device : string)
| load_gguf (model : pyval)
| rkllm_build (optimization_level : Z) (quantized_dtype target_platform : string)
    (num_npu_core : nat) (extra_qparams dataset : pyval)
| export_rkllm (path : string)
| hf_login (token : pyval)
| hf_whoami_name (token : pyval)
| auth_check (model : string)
| ModelCard_load (repo : string)
| card_data_to_yaml (repo : string)
| card_text (repo : string)
| ModelCard_save (text path : string)
| HfApi_new (token : pyval)
| create_repo (repo_id : string)
| shutil_copytree (src dst : string)
| upload_folder (repo_id folder_path : string).

#[global] Instance call_eq_dec : EqDecision call.
Proof. solve_decision. Defined.

(** What a call does: it returns a value or raises. *)
Inductive reply : Type :=
| Returns (v : pyval)
| Raises (e : exn).

#[global] Instance reply_eq_dec : EqDecision reply.
Proof. solve_decision. Defined.

(** The world answers a call from the calls made so far, latest first. *)
Definition World : Type := list call -> call -> reply.

(** The state a run threads: the paths that exist, the calls made
    with their replies (latest first), and the lines printed (latest
    first). *)
Record state : Type := mkState {
  fs : gset string;
  trace : list (call * reply);
  out : list string
}.

(** ** A state and exception monad *)

Definition M (A : Type) : Type := state -> (exn + A) * state.

Definition ret {A} (a : A) : M A := fun s => (inr a, s).

Definition raise {A} (e : exn) : M A := fun s => (inl e, s).

Definition bind {A B} (m : M A) (k : A -> M B) : M B :=
  fun s =>
    match m s with
    | (inr a, s') => k a s'
    | (inl e, s') => (inl e, s')
    end.

Notation "x <- m ;; k" := (bind m (fun x => k))
  (at level 100, m at next level, right associativity).
Notation "m ;;; k" := (bind m (fun _ => k))
  (at level 100, right associativity).

(** [try: body / except <catches>: handler]: the handler runs in the state
    the body left behind. *)
Definition try_except {A} (body : M A) (catches : exn -> bool)
    (handler : exn -> M A) : M A :=
  fun s =>
    match body s with
    | (inl e, s') => if catches e then handler e s' else (inl e, s')
    | r => r
    end.

(** [try: body / except ...: handler / else: orelse]: what [orelse] raises
    is not caught. *)
Definition try_except_else {A B} (body : M A) (catches : exn -> bool)
    (handler : exn -> M B) (orelse : A -> M B) : M B :=
  fun s =>
    match body s with
    | (inl e, s') => if catches e then handler e s' else (inl e, s')
    | (inr a, s') => orelse a s'
    end.

Definition lift {A} (r : exn + A) : M A :=
  match r with inl e => raise e | inr a => ret a end.

(** [self.attr] for an attribute that may be unset. *)
Definition getattr {A} (name : string) (a : option A) : M A :=
  match a with
  | Some v => ret v
  | None =>
      raise (Exn AttributeError
               ("'RKLLMRemotePipeline' object has no attribute '" +:+ name
                +:+ "'"))
  end.

Definition print (line : string) : M unit :=
  fun s => (inr tt, {| fs := fs s; trace := trace s; out := line :: out s |}).

Definition os_path_exists (path : string) : M bool :=
  fun s => (inr (bool_decide (path ∈ fs s)), s).

Section Program.

(** [str] of a float and [repr] of a string are Python's own; the
    program is read for any such pair. *)
Variable str_float : float -> string.
Variable repr_str : string -> string.

(** The world the program runs in. *)
Variable world : World.

(** An outside call: asked of the world, recorded, returned or raised.
    A path that [os.makedirs] made exists from then on. *)
Definition extern (c : call) : M pyval :=
  fun s =>
    let r := world (map fst (trace s)) c in
    let fs' :=
      match c, r with
      | os_makedirs p, Returns _ => {[ p ]} ∪ fs s
      | _, _ => fs s
      end in
    let s' := {| fs := fs'; trace := (c, r) :: trace s; out := out s |} in
    match r with
    | Returns v => (inr v, s')
    | Raises e => (inl e, s')
    end.

(** [RKLLMRemotePipeline.mkpath] *)
Definition mkpath (path : string) : M unit :=
  try_except
    (there <- os_path_exists path ;;
     if negb there then
       extern (os_makedirs path) ;;;
       print ("mkdir'd " +:+ path)
     else
       print ("Path " +:+ path +:+ " already exists! Great job!"))
    is_RuntimeError
    (fun e =>
       print ("Can't create paths for importing and exporting model." +:+ nl
              +:+ exn_msg e)).

Definition with_modelpath (rk : Pipeline) (v : pyval) : Pipeline :=
  {| req := req rk; npu_cores := npu_cores rk; dataset := dataset rk;
     qparams := qparams rk; device := device rk; model_name := model_name rk;
     model_dir := model_dir rk; name_suffix := name_suffix rk;
     lora_name := lora_name rk; lora_dir := lora_dir rk;
     lorapath := lorapath rk; export_name := export_name rk;
     export_path := export_path rk; rkllm_version := rkllm_version rk;
     modelpath := Some v |}.

Definition with_lorapath (rk : Pipeline) (v : pyval) : Pipeline :=
  {| req := req rk; npu_cores := npu_cores rk; dataset := dataset rk;
     qparams := qparams rk; device := device rk; model_name := model_name rk;
     model_dir := model_dir rk; name_suffix := name_suffix rk;
     lora_name := lora_name rk; lora_dir := lora_dir rk;
     lorapath := Some v; export_name := export_name rk;
     export_path := export_path rk; rkllm_version := rkllm_version rk;
     modelpath := modelpath rk |}.

(** [if status != 0: raise RuntimeError(f"Failed to <step> model: {status}")] *)
Definition check_status (step : string) (status : pyval) : M unit :=
  if negb (py_eq status (PyInt 0)) then
    raise (Exn RuntimeError
             ("Failed to " +:+ step +:+ " model: " +:+ py_str status))
  else ret tt.

(** [RKLLMRemotePipeline.remote_pipeline_to_local] *)
Definition remote_pipeline_to_local (rk : Pipeline) : M Pipeline :=
  print ("Checking if " +:+ model_dir rk +:+ " and " +:+ export_path rk
         +:+ " exist...") ;;;
  mkpath (model_dir rk) ;;;
  mkpath (export_path rk) ;;;
  print ("Loading base model " +:+ model_id (req rk)
         +:+ " from HuggingFace and downloading to " +:+ model_dir rk) ;;;
  mp <- extern (snapshot_download (PyStr (model_id (req rk)))
                  (PyStr (model_dir rk))) ;;
  let rk := with_modelpath rk mp in
  rk <- (if py_eq (lora_id (req rk)) PyNone then
           print ("LoRA is " +:+ py_str (lora_id (req rk))
                  +:+ " - skipping download") ;;;
           ret rk
         else
           print ("Downloading LoRA: " +:+ py_str (lora_id (req rk))
                  +:+ " from HuggingFace to " +:+ py_str (lora_dir rk)) ;;;
           try_except
             (lp <- extern (snapshot_download (lora_id (req rk))
                              (lora_dir rk)) ;;
              ret (with_lorapath rk lp))
             any_exn
             (fun _ =>
                print "Downloading LoRA failed. Omitting from export." ;;;
                (* [self.lorapath == None]: a comparison, not an assignment *)
                getattr "lorapath" (lorapath rk) ;;;
                ret rk)) ;;
  print "Initializing RKLLM class..." ;;;
  extern import_rkllm_api ;;;
  extern RKLLM_new ;;;
  (if String.eqb (library_type (req rk)) "HF" then
     print "Have to load model for each config" ;;;
     mp <- getattr "modelpath" (modelpath rk) ;;
     lp <- getattr "lorapath" (lorapath rk) ;;
     status <- extern (load_huggingface mp lp (device rk)) ;;
     check_status "load" status ;;;
     print (model_name rk +:+ " loaded successfully!")
   else if String.eqb (library_type (req rk)) "GGUF" then
     print "Have to load model for each config" ;;;
     mp <- getattr "modelpath" (modelpath rk) ;;
     status <- extern (load_gguf mp) ;;
     check_status "load" status ;;;
     print (model_name rk +:+ " loaded successfully!")
   else
     print "Model must be of type HF (HuggingFace) or GGUF." ;;;
     raise (Exn RuntimeError
              "Must be something wrong with the selector! Try again!")) ;;;
  print ("Building " +:+ model_name rk +:+ " with " +:+ qtype (req rk)
         +:+ " quantization and optimization level "
         +:+ pretty (optimization (req rk))) ;;;
  cores <- getattr "npu_cores" (npu_cores rk) ;;
  status <- extern (rkllm_build (optimization (req rk)) (qtype (req rk))
                      (platform (req rk)) cores (qparams rk) (dataset rk)) ;;
  check_status "build" status ;;;
  print (model_name rk +:+ " built successfully!") ;;;
  status <- extern (export_rkllm
                      (export_path rk +:+ export_name rk +:+ ".rkllm")) ;;
  check_status "export" status ;;;
  print (model_name rk +:+ " exported successfully to " +:+ export_path rk
         +:+ "!") ;;;
  ret rk.

(** ** HubHelpers *)

Record HubHelpers : Type := mkHubHelpers {
  h_model_id : string;
  h_lora_id : pyval;
  h_platform : string;
  h_qtype : string;
  h_rkllm_version : string;
  home_dir : pyval;
  hf_token : option pyval;
  hf_username : option pyval;
  repo_url : option pyval
}.

(** [HubHelpers.__init__] *)
Definition HubHelpers_init (platform model_id : string) (lora_id : pyval)
    (qtype rkllm_version : string) : M HubHelpers :=
  home <- extern (os_environ_get "HOME") ;;
  extern (os_environ_set "HF_HUB_ENABLE_HF_TRANSFER" "1") ;;;
  ret {| h_model_id := model_id; h_lora_id := lora_id;
         h_platform := platform; h_qtype := qtype;
         h_rkllm_version := rkllm_version; home_dir := home;
         hf_token := None; hf_username := None; repo_url := None |}.

(** [HubHelpers.repo_check]: [True] when the check passes, [None] after
    either message. *)
Definition repo_check (model : string) : M pyval :=
  try_except_else (extern (auth_check model))
    is_RepositoryNotFoundError
    (fun e =>
       if is_GatedRepoError e then
         print (model +:+ " is a gated repo." +:+ nl
                +:+ "You do not have permission to access it." +:+ nl
                +:+ "                   Please authenticate." +:+ nl) ;;;
         ret PyNone
       else
         print (model +:+ " not found.") ;;;
         ret PyNone)
    (fun _ =>
       print ("Model repo " +:+ model +:+ " has been validated!") ;;;
       ret (PyBool true)).

(** [HubHelpers.login_to_hf] *)
Definition login_to_hf (hf : HubHelpers) : M HubHelpers :=
  let token_path := py_str (home_dir hf) +:+ "/.cache/huggingface/token" in
  there <- os_path_exists token_path ;;
  token <- (if there then extern (file_read token_path)
            else extern (inquirer_prompt
                           "Please enter your Hugging Face token")) ;;
  try_except_else (extern (hf_login token))
    is_Exception
    (fun e =>
       print ("Login failed: " +:+ exn_msg e +:+ nl
              +:+ "Gated models will be inaccessible, and you "
              +:+ "will not be able to upload to HuggingFace."))
    (fun _ => print "Logged into HuggingFace!") ;;;
  name <- extern (hf_whoami_name token) ;;
  print (py_str name) ;;;
  ret {| h_model_id := h_model_id hf; h_lora_id := h_lora_id hf;
         h_platform := h_platform hf; h_qtype := h_qtype hf;
         h_rkllm_version := h_rkllm_version hf; home_dir := home_dir hf;
         hf_token := Some token; hf_username := Some name;
         repo_url := repo_url hf |}.

Definition hub_getattr {A} (name : string) (a : option A) : M A :=
  match a with
  | Some v => ret v
  | None =>
      raise (Exn AttributeError
               ("'HubHelpers' object has no attribute '" +:+ name +:+ "'"))
  end.

(** [HubHelpers.build_card] *)
Definition build_card (hf : HubHelpers) (export_path : string) : M unit :=
  model_name <- lift (split_slash_1_snd (h_model_id hf)) ;;
  extern (ModelCard_load (h_model_id hf)) ;;;
  let card_out := export_path +:+ "README.md" in
  yaml <- extern (card_data_to_yaml (h_model_id hf)) ;;
  text <- extern (card_text (h_model_id hf)) ;;
  let template :=
    "---" +:+ nl
    +:+ py_str yaml +:+ nl
    +:+ "---" +:+ nl
    +:+ "# " +:+ model_name +:+ "-" +:+ str_upper (h_platform hf) +:+ "-"
    +:+ h_rkllm_version hf +:+ nl +:+ nl
    +:+ "This version of " +:+ model_name
    +:+ " has been converted to run on the " +:+ str_upper (h_platform hf)
    +:+ " NPU using " +:+ h_qtype hf +:+ " quantization." +:+ nl +:+ nl
    +:+ "This model has been optimized with the following LoRA: "
    +:+ py_str (h_lora_id hf) +:+ nl +:+ nl
    +:+ "Compatible with RKLLM version: " +:+ h_rkllm_version hf
    +:+ nl +:+ nl
    +:+ "## Useful links:" +:+ nl
    +:+ "[Official RKLLM GitHub](https://github.com/airockchip/rknn-llm) "
    +:+ nl +:+ nl
    +:+ "[RockhipNPU Reddit](https://reddit.com/r/RockchipNPU) "
    +:+ nl +:+ nl
    +:+ "[EZRKNN-LLM](https://github.com/Pelochus/ezrknn-llm/) "
    +:+ nl +:+ nl
    +:+ "Pretty much anything by these folks: [marty1885](https://github.com/marty1885) and [happyme531](https://huggingface.co/happyme531) "
    +:+ nl +:+ nl
    +:+ "Converted using https://github.com/c0zaut/ez-er-rkllm-toolkit "
    +:+ nl +:+ nl
    +:+ "# Original Model Card for base model, " +:+ model_name
    +:+ ", below:" +:+ nl +:+ nl
    +:+ py_str text in
  try_except_else (extern (ModelCard_save template card_out))
    (fun e => is_RuntimeError e || is_RuntimeWarning e)
    (fun e =>
       if is_RuntimeError e then print ("Runtime Error: " +:+ exn_msg e)
       else print ("Runtime Warning: " +:+ exn_msg e))
    (fun _ =>
       print ("Model card successfully exported to " +:+ card_out +:+ "!") ;;;
       c <- extern (file_read card_out) ;;
       print (py_str c)).

(** [HubHelpers.upload_to_repo] *)
Definition upload_to_repo (hf : HubHelpers) (model import_path export_path
    : string) : M HubHelpers :=
  token <- hub_getattr "hf_token" (hf_token hf) ;;
  extern (HfApi_new token) ;;;
  username <- hub_getattr "hf_username" (hf_username hf) ;;
  let repo_id :=
    py_str username +:+ "/" +:+ model +:+ "-" +:+ h_platform hf +:+ "-"
    +:+ h_rkllm_version hf in
  print "Creating repo if it does not already exist" ;;;
  hf <- try_except_else (extern (create_repo repo_id))
          any_exn
          (fun _ => print ("Create repo for " +:+ model +:+ " failed!") ;;;
                    ret hf)
          (fun url =>
             print ("Repo created! URL: " +:+ py_str url) ;;;
             ret {| h_model_id := h_model_id hf; h_lora_id := h_lora_id hf;
                    h_platform := h_platform hf; h_qtype := h_qtype hf;
                    h_rkllm_version := h_rkllm_version hf;
                    home_dir := home_dir hf; hf_token := hf_token hf;
                    hf_username := hf_username hf;
                    repo_url := Some url |}) ;;
  print "Generating model card and copying configs" ;;;
  build_card hf export_path ;;;
  extern (shutil_copytree import_path export_path) ;;;
  extern (upload_folder repo_id export_path) ;;;
  ret hf.

(** ** The command line *)

Inductive Platform : Type := rk3588 | rk3576.

(** The value of a member, which is also what [==] against a string and an
    f-string field see of a [str]-mixin [Enum] (Python up to 3.10). *)
Definition Platform_value (p : Platform) : string :=
  match p with rk3588 => "rk3588" | rk3576 => "rk3576" end.

Definition QTypesRk3588 : list string :=
  ["w8a8"; "w8a8_g128"; "w8a8_g256"; "w8a8_g512"].

Definition QTypesRk3576 : list string :=
  ["w8a8"; "w4a16"; "w4a16_g32"; "w4a16_g64"; "w4a16_g128"].

(** [E(value)]: the member with that value, or a [ValueError]. *)
Definition enum_by_value (name : string) (members : list string)
    (value : string) : exn + string :=
  if bool_decide (value ∈ members) then inr value
  else inl (Exn ValueError (repr_str value +:+ " is not a valid " +:+ name)).

(** [all(E(qtype) in E for qtype in qtypes)] *)
Fixpoint all_qtypes_in (name : string) (members : list string)
    (qtypes : list string) : exn + bool :=
  match qtypes with
  | [] => inr true
  | q :: qs =>
      match enum_by_value name members q with
      | inl e => inl e
      | inr m =>
          if bool_decide (m ∈ members) then all_qtypes_in name members qs
          else inr false
      end
  end.

(** [0 <= hybrid_rate <= 1] *)
Definition hybrid_rate_in_range (r : float) : bool :=
  PrimFloat.leb 0 r && PrimFloat.leb r 1.

(** [assert cond] *)
Definition py_assert (cond : bool) : M unit :=
  if cond then ret tt else raise (Exn AssertionError "").

(** The [# Validate] part of [convert]. *)
Definition validate (qtypes : list string) (hybrid_rates : list float)
    (target : Platform) : M unit :=
  (if String.eqb (Platform_value target) "rk3588" then
     ok <- lift (all_qtypes_in "QTypesRk3588" QTypesRk3588 qtypes) ;;
     py_assert ok
   else if String.eqb (Platform_value target) "rk3576" then
     ok <- lift (all_qtypes_in "QTypesRk3576" QTypesRk3576 qtypes) ;;
     py_assert ok
   else ret tt) ;;;
  py_assert (forallb hybrid_rate_in_range hybrid_rates).

(** [for x in l: body] *)
Fixpoint for_each {A} (l : list A) (body : A -> M unit) : M unit :=
  match l with
  | [] => ret tt
  | x :: xs => body x ;;; for_each xs body
  end.

(** The request the loop body constructs.  The field [f"{platform}"] is
    taken as the member's value, which is how Python up to 3.10 formats a
    [str]-mixin [Enum]; from 3.11 on the field reads "Platform.rk3588",
    for which [build_vars] sets no core count, so that no run from the
    command line reaches the build.  The statements below about runs of
    [convert] do not depend on which of the two it is. *)
Definition cli_request (model qtype : string) (hybrid_rate : float)
    (optimization : bool) (target : Platform) : Request :=
  {| model_id := model;
     lora_id := PyStr "";
     platform := Platform_value target;
     qtype := qtype;
     hybrid_rate := str_float hybrid_rate;
     library_type := "HF";
     optimization := if optimization then 1 else 0 |}.

(** The [try] statement of the loop body. *)
Definition convert_and_upload (rk : Pipeline) (hf : HubHelpers) : M unit :=
  try_except
    (rk <- remote_pipeline_to_local rk ;;
     upload_to_repo hf (model_name rk) (model_dir rk) (export_path rk) ;;;
     ret tt)
    is_RuntimeError
    (fun e => print ("Model conversion failed: " +:+ exn_msg e)).

(** The loop body up to [hf.login_to_hf()]. *)
Definition prepare (model qtype : string) (hybrid_rate : float)
    (optimization : bool) (target : Platform) : M (Pipeline * HubHelpers) :=
  rk <- lift (build_vars
                (cli_request model qtype hybrid_rate optimization target)) ;;
  hf <- HubHelpers_init (platform (req rk)) model (lora_id (req rk))
          qtype (rkllm_version rk) ;;
  hf <- login_to_hf hf ;;
  ret (rk, hf).

(** The body of the innermost loop. *)
Definition convert_one (optimization : bool) (target : Platform)
    (model qtype : string) (hybrid_rate : float) : M unit :=
  p <- prepare model qtype hybrid_rate optimization target ;;
  repo_check (model_id (req (fst p))) ;;;
  convert_and_upload (fst p) (snd p).

(** [convert] *)
Definition convert (model_ids qtypes : list string)
    (hybrid_rates : list float) (optimization : bool) (target : Platform)
    : M unit :=
  validate qtypes hybrid_rates target ;;;
  for_each model_ids (fun model =>
    for_each qtypes (fun qtype =>
      for_each hybrid_rates (fun hybrid_rate =>
        convert_one optimization target model qtype hybrid_rate))).

End Program.

(** ** Concrete worlds and inputs *)

(** A world in which every call succeeds: the engine returns status 0 and
    the hub returns plausible values. *)
Definition world_ok : World := fun _ c =>
  match c with
  | os_environ_get _ => Returns (PyStr "/root")
  | inquirer_prompt _ => Returns (PyStr "hf_token")
  | file_read p => Returns (PyStr ("contents of " +:+ p))
  | snapshot_download _ (PyStr d) => Returns (PyStr d)
  | snapshot_download _ _ =>
      Raises (Exn (OtherException "HFValidationError") "bad repo id")
  | load_huggingface _ _ _ | load_gguf _ | rkllm_build _ _ _ _ _ _
  | export_rkllm _ => Returns (PyInt 0)
  | hf_whoami_name _ => Returns (PyStr "alice")
  | card_data_to_yaml _ => Returns (PyStr "license: mit")
  | card_text _ => Returns (PyStr "A model.")
  | create_repo r => Returns (PyStr ("https://huggingface.co/" +:+ r))
  | _ => Returns PyNone
  end.

Definition state0 : state := {| fs := ∅; trace := []; out := [] |}.

(** A toy [str] for floats, right on the three values used below. *)
Definition str_float0 (r : float) : string :=
  if PrimFloat.eqb r 0 then "0.0"
  else if PrimFloat.eqb r 1 then "1.0"
  else if PrimFloat.eqb r 2 then "2.0"
  else "0.5".

(** A toy [repr] for strings, right on strings without quotes, backslashes
    and control characters. *)
Definition repr_str0 (s : string) : string := "'" +:+ s +:+ "'".

(** ** Vocabulary of the statements *)

(** The [name_suffix] of a request, as [build_vars] formats it. *)
Definition name_suffix_of (r : Request) : string :=
  platform r +:+ "-" +:+ qtype r +:+ "-opt-" +:+ pretty (optimization r)
  +:+ "-hybrid-ratio-" +:+ hybrid_rate r.

(** The request names a LoRA: the test [build_vars] makes. *)
Definition has_lora (r : Request) : bool :=
  negb (py_eq (lora_id r) (PyStr "")).

(** Two requests differ in exactly one of the fields that take part in
    the export name, and agree on the model and on the other four. *)
Inductive differ_in_one (r1 r2 : Request) : Prop :=
| differ_qtype :
    qtype r1 <> qtype r2 -> hybrid_rate r1 = hybrid_rate r2 ->
    optimization r1 = optimization r2 -> platform r1 = platform r2 ->
    lora_id r1 = lora_id r2 -> differ_in_one r1 r2
| differ_hybrid_rate :
    hybrid_rate r1 <> hybrid_rate r2 -> qtype r1 = qtype r2 ->
    optimization r1 = optimization r2 -> platform r1 = platform r2 ->
    lora_id r1 = lora_id r2 -> differ_in_one r1 r2
| differ_optimization :
    optimization r1 <> optimization r2 -> qtype r1 = qtype r2 ->
    hybrid_rate r1 = hybrid_rate r2 -> platform r1 = platform r2 ->
    lora_id r1 = lora_id r2 -> differ_in_one r1 r2
| differ_platform :
    platform r1 <> platform r2 -> qtype r1 = qtype r2 ->
    hybrid_rate r1 = hybrid_rate r2 ->
    optimization r1 = optimization r2 ->
    lora_id r1 = lora_id r2 -> differ_in_one r1 r2
| differ_lora_presence :
    has_lora r1 <> has_lora r2 -> qtype r1 = qtype r2 ->
    hybrid_rate r1 = hybrid_rate r2 ->
    optimization r1 = optimization r2 -> platform r1 = platform r2 ->
    differ_in_one r1 r2.

(** The request of the scenario: model "org/llama-x" for rk3588, "w8a8",
    hybrid rate 0.0, optimization on, no LoRA. *)
Definition scenario_request : Request :=
  {| model_id := "org/llama-x"; lora_id := PyStr ""; platform := "rk3588";
     qtype := "w8a8"; hybrid_rate := "0.0"; library_type := "HF";
     optimization := 1 |}.

(** The same request with another hybrid rate. *)
Definition scenario_request_half : Request :=
  {| model_id := "org/llama-x"; lora_id := PyStr ""; platform := "rk3588";
     qtype := "w8a8"; hybrid_rate := "0.5"; library_type := "HF";
     optimization := 1 |}.

(** The three engine steps, by the word their failure message uses. *)
Definition engine_step (c : call) : option string :=
  match c with
  | load_huggingface _ _ _ | load_gguf _ => Some "load"
  | rkllm_build _ _ _ _ _ _ => Some "build"
  | export_rkllm _ => Some "export"
  | _ => None
  end.

(** Every run of [m] only adds calls to the trace, and the calls [d] it
    adds (latest first) and its result [r] satisfy [P]. *)
Definition runs_with {A} (m : M A)
    (P : list (call * reply) -> exn + A -> Prop) : Prop :=
  forall s r s', m s = (r, s') ->
    exists d, trace s' = (d ++ trace s)%list /\ P d r.

(** Every call in [d] satisfies [ok]. *)
Definition all_calls (ok : call -> Prop) (d : list (call * reply)) : Prop :=
  forall c rep, (c, rep) ∈ d -> ok c.

(** An engine step of [d] that returned a status [!= 0] is the last call
    made, and the run raised the [RuntimeError] with that status. *)
Definition fail_fast {A} (d : list (call * reply)) (r : exn + A) : Prop :=
  forall c v step,
    (c, Returns v) ∈ d -> engine_step c = Some step ->
    py_eq v (PyInt 0) = false ->
    head d = Some (c, Returns v) /\
    r = inl (Exn RuntimeError
               ("Failed to " +:+ step +:+ " model: " +:+ py_str v)).

(** Every call a run of [m] makes satisfies [ok]. *)
Definition calls_only (ok : call -> Prop) {A} (m : M A) : Prop :=
  runs_with m (fun d _ => all_calls ok d).

(** No run of [m] makes an engine call. *)
Definition engine_free {A} (m : M A) : Prop :=
  calls_only (fun c => engine_step c = None) m.

(** Every run of [m] stops at the first engine step that fails. *)
Definition fails_fast {A} (m : M A) : Prop := runs_with m fail_fast.

(** What [build_vars] makes of [scenario_request]. *)
Definition scenario_pipeline : Pipeline :=
  {| req := scenario_request; npu_cores := Some 3%nat; dataset := PyNone;
     qparams := PyNone; device := "cpu"; model_name := "llama-x";
     model_dir := "./models/llama-x/";
     name_suffix := "rk3588-w8a8-opt-1-hybrid-ratio-0.0";
     lora_name := PyNone; lora_dir := PyNone; lorapath := Some PyNone;
     export_name := "llama-x-rk3588-w8a8-opt-1-hybrid-ratio-0.0";
     export_path := "./models/llama-x-rk3588/";
     rkllm_version := "1.1.4"; modelpath := None |}.

(** The engine's load returns status 1; everything else succeeds. *)
Definition world_load_fails : World := fun h c =>
  match c with
  | load_huggingface _ _ _ => Returns (PyInt 1)
  | _ => world_ok h c
  end.

(** The engine's build returns status 1; everything else succeeds. *)
Definition world_build_fails : World := fun h c =>
  match c with
  | rkllm_build _ _ _ _ _ _ => Returns (PyInt 1)
  | _ => world_ok h c
  end.

(** The quantization types of a platform and the name of their [Enum]. *)
Definition allowed_qtypes (target : Platform) : list string :=
  match target with rk3588 => QTypesRk3588 | rk3576 => QTypesRk3576 end.

Definition qtypes_enum_name (target : Platform) : string :=
  match target with rk3588 => "QTypesRk3588" | rk3576 => "QTypesRk3576" end.

(** The first requested qtype the platform does not allow. *)
Definition first_invalid_qtype (target : Platform) (qtypes : list string)
    : option string :=
  List.find (fun q => negb (bool_decide (q ∈ allowed_qtypes target))) qtypes.

(** Logging in is rejected and so is [whoami]; everything else succeeds. *)
Definition world_login_rejected : World := fun h c =>
  match c with
  | hf_login _ => Raises (Exn ValueError "Invalid token passed!")
  | hf_whoami_name _ =>
      Raises (Exn (OtherException "HfHubHTTPError") "401 Client Error")
  | _ => world_ok h c
  end.

(** The hub does not know the model "org/a"; everything else succeeds. *)
Definition world_repo_missing : World := fun h c =>
  match c with
  | auth_check "org/a" | snapshot_download (PyStr "org/a") _ =>
      Raises (Exn RepositoryNotFoundError "404 Client Error")
  | _ => world_ok h c
  end.

(** The hub refuses to create a repository; everything else succeeds. *)
Definition world_no_create_repo : World := fun h c =>
  match c with
  | create_repo _ =>
      Raises (Exn (OtherException "HfHubHTTPError") "403 Forbidden")
  | _ => world_ok h c
  end.

(** The artifact path the scenario is said to yield, with the owner in
    the directory name. *)
Definition claimed_scenario_path : string :=
  "./models/org-llama-x-rk3588/llama-x-rk3588-w8a8-opt-1-hybrid-ratio-0.0.rkllm".

(** The artifact path the code yields. *)
Definition scenario_path : string :=
  "./models/llama-x-rk3588/llama-x-rk3588-w8a8-opt-1-hybrid-ratio-0.0.rkllm".

(** The combinations the three loops of [convert] go through, in order. *)
Definition combinations (model_ids qtypes : list string)
    (hybrid_rates : list float) : list (string * string * float) :=
  flat_map (fun model =>
    flat_map (fun qtype =>
      map (fun hybrid_rate => (model, qtype, hybrid_rate)) hybrid_rates)
      qtypes)
    model_ids.

(** The loop body on a combination. *)
Definition convert_combination (str_float : float -> string) (world : World)
    (optimization : bool) (target : Platform)
    (c : string * string * float) : M unit :=
  convert_one str_float world optimization target (fst (fst c)) (snd (fst c))
    (snd c).

(** The state after the handler of the loop's [try] has logged [e]. *)
Definition logged_failure (e : exn) (s : state) : state :=
  {| fs := fs s; trace := trace s;
     out := ("Model conversion failed: " +:+ exn_msg e) :: out s |}.

(** The body of the loop's [try]. *)
Definition conversion_and_upload_body (world : World) (rk : Pipeline)
    (hf : HubHelpers) : M unit :=
  rk <- remote_pipeline_to_local world rk ;;
  upload_to_repo world hf (model_name rk) (model_dir rk) (export_path rk) ;;;
  ret tt.

(** The hub reports every repository as gated; everything else succeeds. *)
Definition world_gated : World := fun h c =>
  match c with
  | auth_check _ => Raises (Exn GatedRepoError "403 Client Error")
  | _ => world_ok h c
  end.

(** The [HubHelpers] object of the scenario after a login as "alice". *)
Definition scenario_hub : HubHelpers :=
  {| h_model_id := "org/llama-x"; h_lora_id := PyStr "";
     h_platform := "rk3588"; h_qtype := "w8a8"; h_rkllm_version := "1.1.4";
     home_dir := PyStr "/root"; hf_token := Some (PyStr "hf_token");
     hf_username := Some (PyStr "alice"); repo_url := None |}.

(** ** Vocabulary of the further properties *)

(** Every call a run of [m] makes satisfies [ok], and a value it returns
    satisfies [post]. *)
Definition calls_only_and (ok : call -> Prop) {A} (post : A -> Prop)
    (m : M A) : Prop :=
  runs_with m (fun d r => all_calls ok d /\ forall a, r = inr a -> post a).

(** Two pipeline objects that differ at most in [modelpath] and
    [lorapath], the attributes the downloads assign. *)
Definition same_config (rk1 rk2 : Pipeline) : Prop :=
  req rk1 = req rk2 /\ npu_cores rk1 = npu_cores rk2 /\
  dataset rk1 = dataset rk2 /\ qparams rk1 = qparams rk2 /\
  device rk1 = device rk2 /\ model_name rk1 = model_name rk2 /\
  model_dir rk1 = model_dir rk2 /\ name_suffix rk1 = name_suffix rk2 /\
  lora_name rk1 = lora_name rk2 /\ lora_dir rk1 = lora_dir rk2 /\
  export_name rk1 = export_name rk2 /\ export_path rk1 = export_path rk2 /\
  rkllm_version rk1 = rkllm_version rk2.

(** The call is no build with quantization parameters or a dataset. *)
Definition build_without_qparams (c : call) : Prop :=
  match c with
  | rkllm_build _ _ _ _ extra_qparams dataset =>
      extra_qparams = PyNone /\ dataset = PyNone
  | _ => True
  end.

(** The call is no [load_gguf]. *)
Definition not_load_gguf (c : call) : Prop :=
  match c with load_gguf _ => False | _ => True end.

(** The call is neither a build nor an export. *)
Definition not_build_or_export (c : call) : Prop :=
  match c with
  | rkllm_build _ _ _ _ _ _ | export_rkllm _ => False
  | _ => True
  end.

(** [remote_pipeline_to_local] up to the downloads: its first part, which
    returns the object with [modelpath] and [lorapath] assigned. *)
Definition acquire (world : World) (rk : Pipeline) : M Pipeline :=
  print ("Checking if " +:+ model_dir rk +:+ " and " +:+ export_path rk
         +:+ " exist...") ;;;
  mkpath world (model_dir rk) ;;;
  mkpath world (export_path rk) ;;;
  print ("Loading base model " +:+ model_id (req rk)
         +:+ " from HuggingFace and downloading to " +:+ model_dir rk) ;;;
  mp <- extern world (snapshot_download (PyStr (model_id (req rk)))
                        (PyStr (model_dir rk))) ;;
  let rk := with_modelpath rk mp in
  if py_eq (lora_id (req rk)) PyNone then
    print ("LoRA is " +:+ py_str (lora_id (req rk))
           +:+ " - skipping download") ;;;
    ret rk
  else
    print ("Downloading LoRA: " +:+ py_str (lora_id (req rk))
           +:+ " from HuggingFace to " +:+ py_str (lora_dir rk)) ;;;
    try_except
      (lp <- extern world (snapshot_download (lora_id (req rk))
                             (lora_dir rk)) ;;
       ret (with_lorapath rk lp))
      any_exn
      (fun _ =>
         print "Downloading LoRA failed. Omitting from export." ;;;
         getattr "lorapath" (lorapath rk) ;;;
         ret rk).

(** [remote_pipeline_to_local] from the engine's initialization on: its
    second part, on the object the first part returns. *)
Definition load_build_export (world : World) (rk : Pipeline) : M Pipeline :=
  print "Initializing RKLLM class..." ;;;
  extern world import_rkllm_api ;;;
  extern world RKLLM_new ;;;
  (if String.eqb (library_type (req rk)) "HF" then
     print "Have to load model for each config" ;;;
     mp <- getattr "modelpath" (modelpath rk) ;;
     lp <- getattr "lorapath" (lorapath rk) ;;
     status <- extern world (load_huggingface mp lp (device rk)) ;;
     check_status "load" status ;;;
     print (model_name rk +:+ " loaded successfully!")
   else if String.eqb (library_type (req rk)) "GGUF" then
     print "Have to load model for each config" ;;;
     mp <- getattr "modelpath" (modelpath rk) ;;
     status <- extern world (load_gguf mp) ;;
     check_status "load" status ;;;
     print (model_name rk +:+ " loaded successfully!")
   else
     print "Model must be of type HF (HuggingFace) or GGUF." ;;;
     raise (Exn RuntimeError
              "Must be something wrong with the selector! Try again!")) ;;;
  print ("Building " +:+ model_name rk +:+ " with " +:+ qtype (req rk)
         +:+ " quantization and optimization level "
         +:+ pretty (optimization (req rk))) ;;;
  cores <- getattr "npu_cores" (npu_cores rk) ;;
  status <- extern world (rkllm_build (optimization (req rk)) (qtype (req rk))
                            (platform (req rk)) cores (qparams rk)
                            (dataset rk)) ;;
  check_status "build" status ;;;
  print (model_name rk +:+ " built successfully!") ;;;
  status <- extern world (export_rkllm
                            (export_path rk +:+ export_name rk +:+ ".rkllm")) ;;
  check_status "export" status ;;;
  print (model_name rk +:+ " exported successfully to " +:+ export_path rk
         +:+ "!") ;;;
  ret rk.

(** The call, if it is a build, has the arguments [remote_pipeline_to_local]
    takes from the object [rk]: optimization level, qtype, platform and
    core count, and [None] for the quantization parameters and the
    dataset. *)
Definition build_args_of (rk : Pipeline) (c : call) : Prop :=
  match c with
  | rkllm_build optimization_level quantized_dtype target_platform
      num_npu_core extra_qparams dataset =>
      optimization_level = optimization (req rk) /\
      quantized_dtype = qtype (req rk) /\
      target_platform = platform (req rk) /\
      npu_cores rk = Some num_npu_core /\
      extra_qparams = PyNone /\ dataset = PyNone
  | _ => True
  end.

(** The scenario with a library type that is neither "HF" nor "GGUF". *)
Definition onnx_pipeline : Pipeline :=
  {| req := {| model_id := "org/llama-x"; lora_id := PyStr "";
               platform := "rk3588"; qtype := "w8a8"; hybrid_rate := "0.0";
               library_type := "ONNX"; optimization := 1 |};
     npu_cores := Some 3%nat; dataset := PyNone;
     qparams := PyNone; device := "cpu"; model_name := "llama-x";
     model_dir := "./models/llama-x/";
     name_suffix := "rk3588-w8a8-opt-1-hybrid-ratio-0.0";
     lora_name := PyNone; lora_dir := PyNone; lorapath := Some PyNone;
     export_name := "llama-x-rk3588-w8a8-opt-1-hybrid-ratio-0.0";
     export_path := "./models/llama-x-rk3588/";
     rkllm_version := "1.1.4"; modelpath := None |}.

(** The scenario for a platform [build_vars] has no core count for. *)
Definition rk3566_request : Request :=
  {| model_id := "org/llama-x"; lora_id := PyStr ""; platform := "rk3566";
     qtype := "w8a8"; hybrid_rate := "0.0"; library_type := "HF";
     optimization := 1 |}.

(** A request with a LoRA: the scenario with the adapter "org/lora-y". *)
Definition lora_request : Request :=
  {| model_id := "org/llama-x"; lora_id := PyStr "org/lora-y";
     platform := "rk3588"; qtype := "w8a8"; hybrid_rate := "0.0";
     library_type := "HF"; optimization := 1 |}.

(** The repository id [upload_to_repo] creates and uploads to. *)
Definition repo_id_of (hf : HubHelpers) (username : pyval) (model : string)
    : string :=
  py_str username +:+ "/" +:+ model +:+ "-" +:+ h_platform hf +:+ "-"
  +:+ h_rkllm_version hf.

(** The string contains a slash. *)
Fixpoint has_slash (s : string) : bool :=
  match s with
  | EmptyString => false
  | String c t => Ascii.eqb c "/"%char || has_slash t
  end.

(** The request [r] for another model. *)
Definition with_model_id (r : Request) (m : string) : Request :=
  {| model_id := m; lora_id := lora_id r; platform := platform r;
     qtype := qtype r; hybrid_rate := hybrid_rate r;
     library_type := library_type r; optimization := optimization r |}.

(** Where [login_to_hf] takes the token from in state [s]: the file
    [$HOME/.cache/huggingface/token] when it exists, the prompt when it
    does not. *)
Definition token_source (hf : HubHelpers) (s : state) : call :=
  let token_path := py_str (home_dir hf) +:+ "/.cache/huggingface/token" in
  if bool_decide (token_path ∈ fs s) then file_read token_path
  else inquirer_prompt "Please enter your Hugging Face token".

(** A state in which the token file of the home directory "/root" exists. *)
Definition state_cached : state :=
  {| fs := {[ "/root/.cache/huggingface/token" ]}; trace := []; out := [] |}.

(** The call is one the first part of the conversion makes. *)
Definition makedirs_or_download (c : call) : Prop :=
  match c with
  | os_makedirs _ | snapshot_download _ _ => True
  | _ => False
  end.

(** The hub does not know the LoRA "org/lora-y"; everything else
    succeeds. *)
Definition world_lora_missing : World := fun h c =>
  match c with
  | snapshot_download (PyStr "org/lora-y") _ =>
      Raises (Exn RepositoryNotFoundError "404 Client Error")
  | _ => world_ok h c
  end.

(** [os.makedirs] is denied; everything else succeeds. *)
Definition world_no_makedirs : World := fun h c =>
  match c with
  | os_makedirs _ => Raises (Exn (OtherException "PermissionError")
                               "[Errno 13] Permission denied")
  | _ => world_ok h c
  end.

(** Two worlds that answer every call but [auth_check] alike. *)
Definition agree_except_auth_check (w1 w2 : World) : Prop :=
  forall h c, (forall m, c <> auth_check m) -> w1 h c = w2 h c.

(** The three outcomes of [auth_check] that [repo_check] handles: it
    returns, or raises [GatedRepoError] or [RepositoryNotFoundError]. *)
Definition advisory_outcomes (w : World) : Prop :=
  forall h m e, w h (auth_check m) = Raises e ->
    is_RepositoryNotFoundError e = true.

(** Two states with the same paths and the same calls made so far; the
    replies to the calls and the printed lines may differ. *)
Definition same_calls (s1 s2 : state) : Prop :=
  fs s1 = fs s2 /\ map fst (trace s1) = map fst (trace s2).

(** From states with the same paths and calls, [m1] and [m2] give the
    same result and again states with the same paths and calls. *)
Definition same_run {A} (m1 m2 : M A) : Prop :=
  forall s1 s2, same_calls s1 s2 ->
    fst (m1 s1) = fst (m2 s2) /\ same_calls (snd (m1 s1)) (snd (m2 s2)).

(** As [same_run], for two computations that both return normally,
    possibly with different values. *)
Definition same_run_returning {A} (m1 m2 : M A) : Prop :=
  forall s1 s2, same_calls s1 s2 ->
    (exists a1 a2, fst (m1 s1) = inr a1 /\ fst (m2 s2) = inr a2) /\
    same_calls (snd (m1 s1)) (snd (m2 s2)).

(** ** Name resolution: the export names of different requests *)

Example split_slash_1_two : split_slash_1 "a/b/c" = ["a"; "b/c"].
Proof. reflexivity. Qed.

Example split_slash_1_none : split_slash_1 "abc" = ["abc"].
Proof. reflexivity. Qed.

Lemma str_length_app (a b : string) :
  String.length (a +:+ b) = (String.length a + String.length b)%nat.
Proof. induction a as [|c a IH]; simpl; [done | by rewrite IH]. Qed.

Lemma str_app_cons (x : ascii) (a b : string) :
  String x a +:+ b = String x (a +:+ b).
Proof. reflexivity. Qed.

Lemma str_app_assoc (a b c : string) : (a +:+ b) +:+ c = a +:+ b +:+ c.
Proof.
  induction a as [|x a IH]; [done|]. by rewrite !str_app_cons, IH.
Qed.

(** Appending on the right is injective. *)
Lemma str_app_inv_tail (t a b : string) : a +:+ t = b +:+ t -> a = b.
Proof.
  revert b; induction a as [|x a IH]; intros [|y b] H.
  - done.
  - apply (f_equal String.length) in H.
    rewrite !str_length_app in H; simpl in H; lia.
  - apply (f_equal String.length) in H.
    rewrite !str_length_app in H; simpl in H; lia.
  - rewrite !str_app_cons in H. injection H as -> H. f_equal. by apply IH.
Qed.

(** Nothing non-empty can be put in front of a string and leave it equal. *)
Lemma str_app_grow (a t : string) : a +:+ t = t -> a = "".
Proof.
  intros H. apply (f_equal String.length) in H.
  rewrite str_length_app in H. destruct a; [done | simpl in H; lia].
Qed.

(** What [build_vars] puts in [export_name], by the branch it takes. *)
Lemma build_vars_export_name (r : Request) (v : Pipeline) :
  build_vars r = inr v ->
  exists mn, split_slash_1_snd (model_id r) = inr mn /\
    ((has_lora r = false /\
      export_name v = mn +:+ "-" +:+ name_suffix_of r) \/
     (has_lora r = true /\ exists l ln,
        lora_id r = PyStr l /\ split_slash_1_snd l = inr ln /\
        export_name v = mn +:+ "-" +:+ ln +:+ "-" +:+ name_suffix_of r)).
Proof.
  unfold build_vars, has_lora, name_suffix_of.
  destruct (split_slash_1_snd (model_id r)) as [e|mn]; [done|].
  intros H. exists mn. split; [done|].
  destruct (py_eq (lora_id r) (PyStr "")) eqn:E.
  - left. injection H as <-. done.
  - right. split; [done|].
    destruct (lora_id r) as [| |z|l]; try done.
    destruct (split_slash_1_snd l) as [e|ln] eqn:El; [done|].
    injection H as <-. by exists l, ln.
Qed.

(** With the same LoRA and one differing suffix field the suffixes differ. *)
Lemma name_suffix_of_differ (r1 r2 : Request) :
  lora_id r1 = lora_id r2 -> differ_in_one r1 r2 ->
  name_suffix_of r1 <> name_suffix_of r2.
Proof.
  intros Hl Hd Heq. unfold name_suffix_of in Heq.
  destruct Hd as [Hq Hh Ho Hp _|Hh Hq Ho Hp _|Ho Hq Hh Hp _|Hp Hq Hh Ho _
                 |Hlo _ _ _ _].
  - apply Hq. rewrite Hh, Ho, Hp in Heq.
    do 2 apply (inj (String.app _)) in Heq. by apply str_app_inv_tail in Heq.
  - apply Hh. rewrite Hq, Ho, Hp in Heq.
    repeat (apply (inj (String.app _)) in Heq). done.
  - apply Ho. rewrite Hq, Hh, Hp in Heq.
    do 4 apply (inj (String.app _)) in Heq.
    apply str_app_inv_tail in Heq. by apply (inj pretty) in Heq.
  - apply Hp. rewrite Hq, Hh, Ho in Heq. by apply str_app_inv_tail in Heq.
  - apply Hlo. unfold has_lora. by rewrite Hl.
Qed.

(** C1: two requests that differ in exactly one of qtype, hybrid_rate,
    optimization level, platform or the presence of a LoRA, and agree on
    everything else, get different export names from [build_vars]; the
    hybrid rate is part of the name in both branches. *)
Theorem export_name_differs (r1 r2 : Request) (v1 v2 : Pipeline) :
  build_vars r1 = inr v1 -> build_vars r2 = inr v2 ->
  model_id r1 = model_id r2 -> differ_in_one r1 r2 ->
  export_name v1 <> export_name v2.
Proof.
  intros H1 H2 Hm Hd.
  destruct (build_vars_export_name _ _ H1) as (mn1 & Hs1 & C1).
  destruct (build_vars_export_name _ _ H2) as (mn2 & Hs2 & C2).
  rewrite Hm in Hs1. rewrite Hs1 in Hs2. injection Hs2 as <-.
  destruct (decide (lora_id r1 = lora_id r2)) as [Hl|Hl].
  - pose proof (name_suffix_of_differ _ _ Hl Hd) as Hne.
    destruct C1 as [[L1 ->]|(L1 & l1 & ln1 & E1 & S1 & ->)];
      destruct C2 as [[L2 ->]|(L2 & l2 & ln2 & E2 & S2 & ->)];
      intros Heq.
    + by repeat (apply (inj (String.app _)) in Heq).
    + unfold has_lora in L1, L2. rewrite Hl in L1. congruence.
    + unfold has_lora in L1, L2. rewrite Hl in L1. congruence.
    + rewrite Hl, E2 in E1. injection E1 as <-.
      rewrite S1 in S2. injection S2 as <-.
      by repeat (apply (inj (String.app _)) in Heq).
  - destruct Hd as [_ _ _ _ ?|_ _ _ _ ?|_ _ _ _ ?|_ _ _ _ ?|Hlo Hq Hh Ho Hp];
      try done.
    assert (name_suffix_of r1 = name_suffix_of r2) as Hs
      by (unfold name_suffix_of; by rewrite Hq, Hh, Ho, Hp).
    destruct C1 as [[L1 ->]|(L1 & l1 & ln1 & E1 & S1 & ->)];
      destruct C2 as [[L2 ->]|(L2 & l2 & ln2 & E2 & S2 & ->)];
      try congruence; intros Heq; rewrite Hs in Heq.
    + do 2 apply (inj (String.app _)) in Heq. symmetry in Heq.
      rewrite <- str_app_assoc in Heq. apply str_app_grow in Heq.
      by destruct ln2.
    + do 2 apply (inj (String.app _)) in Heq.
      rewrite <- str_app_assoc in Heq. apply str_app_grow in Heq.
      by destruct ln1.
Qed.

Lemma export_name_differs_witness :
  exists v1 v2,
    build_vars scenario_request = inr v1 /\
    build_vars scenario_request_half = inr v2 /\
    export_name v1 <> export_name v2.
Proof.
  eexists _, _. split; [reflexivity|]. split; [reflexivity|].
  apply (export_name_differs scenario_request scenario_request_half);
    [reflexivity | reflexivity | reflexivity |].
  apply differ_hybrid_rate; [discriminate | reflexivity..].
Defined.

(** ** A logic of traces for the monad *)

Section Traces.

Context (world : World).

Lemma runs_with_ret {A} (a : A) (P : list (call * reply) -> exn + A -> Prop) :
  P [] (inr a) -> runs_with (ret a) P.
Proof. intros H s r s' [= <- <-]. by exists []. Qed.

Lemma runs_with_raise {A} (e : exn)
    (P : list (call * reply) -> exn + A -> Prop) :
  P [] (inl e) -> runs_with (raise e) P.
Proof. intros H s r s' [= <- <-]. by exists []. Qed.

Lemma runs_with_print (line : string)
    (P : list (call * reply) -> exn + unit -> Prop) :
  P [] (inr tt) -> runs_with (print line) P.
Proof. intros H s r s' [= <- <-]. by exists []. Qed.

Lemma runs_with_os_path_exists (path : string)
    (P : list (call * reply) -> exn + bool -> Prop) :
  (forall b, P [] (inr b)) -> runs_with (os_path_exists path) P.
Proof. intros H s r s' [= <- <-]. by exists []. Qed.

Lemma runs_with_extern (c : call)
    (P : list (call * reply) -> exn + pyval -> Prop) :
  (forall v, P [(c, Returns v)] (inr v)) ->
  (forall e, P [(c, Raises e)] (inl e)) ->
  runs_with (extern world c) P.
Proof.
  intros Hv He s r s'. unfold extern.
  destruct (world (map fst (trace s)) c) as [v|e]; intros [= <- <-].
  - exists [(c, Returns v)]. by split.
  - exists [(c, Raises e)]. by split.
Qed.

Lemma runs_with_bind {A B} (m : M A) (k : A -> M B)
    (Q : list (call * reply) -> exn + A -> Prop)
    (R P : list (call * reply) -> exn + B -> Prop) :
  runs_with m Q -> (forall a, runs_with (k a) R) ->
  (forall d e, Q d (inl e) -> P d (inl e)) ->
  (forall d1 a d2 r, Q d1 (inr a) -> R d2 r -> P (d2 ++ d1)%list r) ->
  runs_with (bind m k) P.
Proof.
  intros Hm Hk Hl Hr s r s'. unfold bind.
  destruct (m s) as [[e|a] s1] eqn:E.
  - intros [= <- <-]. destruct (Hm _ _ _ E) as (d & ? & ?). exists d. eauto.
  - intros E2. destruct (Hm _ _ _ E) as (d1 & T1 & ?).
    destruct (Hk a _ _ _ E2) as (d2 & T2 & ?).
    exists (d2 ++ d1)%list. split; [by rewrite T2, T1, app_assoc | eauto].
Qed.

Lemma runs_with_try_except_else {A B} (body : M A) (catches : exn -> bool)
    (handler : exn -> M B) (orelse : A -> M B)
    (Q : list (call * reply) -> exn + A -> Prop)
    (R P : list (call * reply) -> exn + B -> Prop) :
  runs_with body Q ->
  (forall e, runs_with (handler e) R) -> (forall a, runs_with (orelse a) R) ->
  (forall d e, Q d (inl e) -> catches e = false -> P d (inl e)) ->
  (forall d1 x d2 r, Q d1 x -> R d2 r -> P (d2 ++ d1)%list r) ->
  runs_with (try_except_else body catches handler orelse) P.
Proof.
  intros Hb Hh Ho Hl Hr s r s'. unfold try_except_else.
  destruct (body s) as [[e|a] s1] eqn:E;
    destruct (Hb _ _ _ E) as (d1 & T1 & ?).
  - destruct (catches e) eqn:C.
    + intros E2. destruct (Hh e _ _ _ E2) as (d2 & T2 & ?).
      exists (d2 ++ d1)%list. split; [by rewrite T2, T1, app_assoc | eauto].
    + intros [= <- <-]. exists d1. eauto.
  - intros E2. destruct (Ho a _ _ _ E2) as (d2 & T2 & ?).
    exists (d2 ++ d1)%list. split; [by rewrite T2, T1, app_assoc | eauto].
Qed.

Lemma runs_with_try_except {A} (body : M A) (catches : exn -> bool)
    (handler : exn -> M A)
    (Q R P : list (call * reply) -> exn + A -> Prop) :
  runs_with body Q -> (forall e, runs_with (handler e) R) ->
  (forall d a, Q d (inr a) -> P d (inr a)) ->
  (forall d e, Q d (inl e) -> catches e = false -> P d (inl e)) ->
  (forall d1 e d2 r, Q d1 (inl e) -> R d2 r -> P (d2 ++ d1)%list r) ->
  runs_with (try_except body catches handler) P.
Proof.
  intros Hb Hh Ha Hl Hr s r s'. unfold try_except.
  destruct (body s) as [[e|a] s1] eqn:E;
    destruct (Hb _ _ _ E) as (d1 & T1 & ?).
  - destruct (catches e) eqn:C.
    + intros E2. destruct (Hh e _ _ _ E2) as (d2 & T2 & ?).
      exists (d2 ++ d1)%list. split; [by rewrite T2, T1, app_assoc | eauto].
    + intros [= <- <-]. exists d1. eauto.
  - intros [= <- <-]. exists d1. eauto.
Qed.

(** *** Computations whose calls all satisfy a predicate *)

Section CallsOnly.

Context (ok : call -> Prop).

Lemma all_calls_nil : all_calls ok [].
Proof. intros c rep H. by apply elem_of_nil in H. Qed.

Lemma all_calls_one (c : call) (rep : reply) : ok c -> all_calls ok [(c, rep)].
Proof. intros H c' rep' [= -> ->]%list_elem_of_singleton. done. Qed.

Lemma all_calls_app (d1 d2 : list (call * reply)) :
  all_calls ok d1 -> all_calls ok d2 -> all_calls ok (d2 ++ d1).
Proof. intros H1 H2 c rep [?|?]%elem_of_app; eauto. Qed.

Lemma calls_only_ret {A} (a : A) : calls_only ok (ret a).
Proof. apply runs_with_ret, all_calls_nil. Qed.

Lemma calls_only_raise {A} (e : exn) : calls_only ok (@raise A e).
Proof. apply runs_with_raise, all_calls_nil. Qed.

Lemma calls_only_print (line : string) : calls_only ok (print line).
Proof. apply runs_with_print, all_calls_nil. Qed.

Lemma calls_only_os_path_exists (path : string) :
  calls_only ok (os_path_exists path).
Proof. apply runs_with_os_path_exists. intros _. apply all_calls_nil. Qed.

Lemma calls_only_getattr {A} (name : string) (a : option A) :
  calls_only ok (getattr name a).
Proof. destruct a; [apply calls_only_ret | apply calls_only_raise]. Qed.

Lemma calls_only_hub_getattr {A} (name : string) (a : option A) :
  calls_only ok (hub_getattr name a).
Proof. destruct a; [apply calls_only_ret | apply calls_only_raise]. Qed.

Lemma calls_only_lift {A} (r : exn + A) : calls_only ok (lift r).
Proof. destruct r; [apply calls_only_raise | apply calls_only_ret]. Qed.

Lemma calls_only_py_assert (cond : bool) : calls_only ok (py_assert cond).
Proof. destruct cond; [apply calls_only_ret | apply calls_only_raise]. Qed.

Lemma calls_only_check_status (step : string) (status : pyval) :
  calls_only ok (check_status step status).
Proof.
  unfold check_status.
  destruct (negb _); [apply calls_only_raise | apply calls_only_ret].
Qed.

Lemma calls_only_extern (c : call) : ok c -> calls_only ok (extern world c).
Proof. intros H. apply runs_with_extern; intros; by apply all_calls_one. Qed.

Lemma calls_only_bind {A B} (m : M A) (k : A -> M B) :
  calls_only ok m -> (forall a, calls_only ok (k a)) ->
  calls_only ok (bind m k).
Proof.
  intros Hm Hk. eapply runs_with_bind; [exact Hm | exact Hk | done |].
  intros. by apply all_calls_app.
Qed.

Lemma calls_only_try_except {A} (body : M A) (catches : exn -> bool)
    (handler : exn -> M A) :
  calls_only ok body -> (forall e, calls_only ok (handler e)) ->
  calls_only ok (try_except body catches handler).
Proof.
  intros Hb Hh.
  eapply runs_with_try_except; [exact Hb | exact Hh | done | done |].
  intros. by apply all_calls_app.
Qed.

Lemma calls_only_try_except_else {A B} (body : M A) (catches : exn -> bool)
    (handler : exn -> M B) (orelse : A -> M B) :
  calls_only ok body -> (forall e, calls_only ok (handler e)) ->
  (forall a, calls_only ok (orelse a)) ->
  calls_only ok (try_except_else body catches handler orelse).
Proof.
  intros Hb Hh Ho.
  eapply runs_with_try_except_else; [exact Hb | exact Hh | exact Ho | done |].
  intros. by apply all_calls_app.
Qed.

Lemma calls_only_for_each {A} (l : list A) (body : A -> M unit) :
  (forall x, calls_only ok (body x)) -> calls_only ok (for_each l body).
Proof.
  intros H. induction l as [|x l IH]; [apply calls_only_ret|].
  apply calls_only_bind; [apply H | intros _; apply IH].
Qed.

End CallsOnly.

(** One step of a proof of [calls_only]; [side] proves that a call
    satisfies the predicate. *)
Ltac calls_only_step side :=
  first
    [ apply calls_only_ret | apply calls_only_raise
    | apply calls_only_print | apply calls_only_os_path_exists
    | apply calls_only_getattr | apply calls_only_hub_getattr
    | apply calls_only_lift | apply calls_only_py_assert
    | apply calls_only_check_status
    | apply calls_only_extern; side
    | apply calls_only_bind; [|intros ?]
    | apply calls_only_try_except; [|intros ?]
    | apply calls_only_try_except_else; [|intros ?|intros ?]
    | apply calls_only_for_each; intros ?
    | match goal with
      | |- calls_only _ (if ?b then _ else _) => destruct b
      end ].

(** *** Computations that stop at a failed engine step *)

Lemma fail_fast_no_engine {A} (d : list (call * reply)) (r : exn + A) :
  all_calls (fun c => engine_step c = None) d -> fail_fast d r.
Proof. intros H c v step Hin Hs. rewrite (H _ _ Hin) in Hs. done. Qed.

Lemma fails_fast_engine_free {A} (m : M A) : engine_free m -> fails_fast m.
Proof.
  intros H s r s' E. destruct (H _ _ _ E) as (d & ? & ?).
  exists d. split; [done | by apply fail_fast_no_engine].
Qed.

Lemma fails_fast_bind {A B} (m : M A) (k : A -> M B) :
  fails_fast m -> (forall a, fails_fast (k a)) -> fails_fast (bind m k).
Proof.
  intros Hm Hk. eapply runs_with_bind; [exact Hm | exact Hk | |].
  - intros d e H c v step Hin Hs Hv.
    destruct (H c v step Hin Hs Hv) as [? [=]]. by subst.
  - intros d1 a d2 r H1 H2 c v step Hin Hs Hv.
    apply elem_of_app in Hin as [Hin|Hin].
    + destruct (H2 c v step Hin Hs Hv) as [Hh ->]. split; [|done].
      destruct d2; [done | by simplify_eq/=].
    + by destruct (H1 c v step Hin Hs Hv) as [_ ?].
Qed.

(** An engine call followed by the test of its status. *)
Lemma fails_fast_step {B} (c : call) (step : string) (rest : M B) :
  engine_step c = Some step -> fails_fast rest ->
  fails_fast (status <- extern world c ;;
              check_status step status ;;; rest).
Proof.
  intros Hc Hrest s r s'. unfold bind at 1, extern.
  destruct (world (map fst (trace s)) c) as [v|e].
  - unfold bind, check_status.
    destruct (negb (py_eq v (PyInt 0))) eqn:Hv; cbn [raise ret].
    + intros [= <- <-]. exists [(c, Returns v)]. split; [done|].
      intros c' v' step' [= -> ->]%list_elem_of_singleton Hs _.
      rewrite Hc in Hs. by injection Hs as <-.
    + intros E. destruct (Hrest _ _ _ E) as (d & T & H).
      exists (d ++ [(c, Returns v)])%list. split.
      { by rewrite T, <- app_assoc. }
      intros c' v' step' Hin Hs Hv'.
      apply elem_of_app in Hin as [Hin|Hin].
      * destruct (H c' v' step' Hin Hs Hv') as [Hh ->]. split; [|done].
        destruct d; [done | by simplify_eq/=].
      * apply list_elem_of_singleton in Hin as [= -> ->].
        apply negb_false_iff in Hv. congruence.
  - intros [= <- <-]. exists [(c, Raises e)]. split; [done|].
    by intros c' v' step' [=]%list_elem_of_singleton.
Qed.

Ltac fails_fast_step :=
  first
    [ apply fails_fast_step; [reflexivity|]
    | apply fails_fast_bind; [|intros ?]
    | match goal with
      | |- fails_fast (if ?b then _ else _) => destruct b
      end
    | apply fails_fast_engine_free ].

Lemma mkpath_calls_only (ok : call -> Prop) (path : string) :
  ok (os_makedirs path) -> calls_only ok (mkpath world path).
Proof. intros H. unfold mkpath. repeat calls_only_step ltac:(exact H). Qed.

Lemma remote_pipeline_to_local_fails_fast (rk : Pipeline) :
  fails_fast (remote_pipeline_to_local world rk).
Proof.
  unfold remote_pipeline_to_local. cbv zeta.
  repeat first [ fails_fast_step
               | apply mkpath_calls_only; reflexivity
               | calls_only_step ltac:(reflexivity) ].
Qed.

End Traces.

(** C3: when the load, build or export call of the engine returns a
    status other than 0, that call is the last one the conversion makes
    (no later step is invoked: after a failed build, [export_rkllm] is
    never called) and the conversion raises the [RuntimeError] whose
    message carries the status as returned. *)
Theorem engine_failure_stops_conversion (world : World) (rk : Pipeline)
    (s s' : state) (r : exn + Pipeline) (d : list (call * reply))
    (c : call) (v : pyval) (step : string) :
  remote_pipeline_to_local world rk s = (r, s') ->
  trace s' = (d ++ trace s)%list ->
  (c, Returns v) ∈ d -> engine_step c = Some step ->
  py_eq v (PyInt 0) = false ->
  head d = Some (c, Returns v) /\
  r = inl (Exn RuntimeError
             ("Failed to " +:+ step +:+ " model: " +:+ py_str v)).
Proof.
  intros E T Hin Hs Hv.
  destruct (remote_pipeline_to_local_fails_fast world rk _ _ _ E)
    as (d' & T' & H).
  rewrite T in T'. apply app_inv_tail in T' as ->. by apply H.
Qed.

Example build_vars_scenario : build_vars scenario_request = inr scenario_pipeline.
Proof. reflexivity. Qed.

Lemma engine_failure_stops_conversion_witness :
  let run := remote_pipeline_to_local world_build_fails scenario_pipeline
               state0 in
  head (trace (snd run))
  = Some (rkllm_build 1 "w8a8" "rk3588" 3 PyNone PyNone, Returns (PyInt 1)) /\
  fst run = inl (Exn RuntimeError "Failed to build model: 1").
Proof.
  intros run.
  apply (engine_failure_stops_conversion world_build_fails scenario_pipeline
           state0 (snd run) (fst run) (trace (snd run))
           (rkllm_build 1 "w8a8" "rk3588" 3 PyNone PyNone) (PyInt 1) "build").
  - apply surjective_pairing.
  - symmetry. apply app_nil_r.
  - vm_compute. apply list_elem_of_here.
  - reflexivity.
  - reflexivity.
Defined.

(** ** Directory preparation *)

(** X17: After a call of [mkpath] in which [os.makedirs] did not raise, the
    path exists. *)
Lemma mkpath_leaves_path (world : World) (path : string) (s s1 : state)
    (r : exn + unit) :
  mkpath world path s = (r, s1) ->
  (forall e, world (map fst (trace s)) (os_makedirs path) <> Raises e) ->
  r = inr tt /\ path ∈ fs s1.
Proof.
  unfold mkpath, try_except, bind, os_path_exists, extern, print.
  destruct (bool_decide (path ∈ fs s)) eqn:Hin; cbn [negb].
  - intros [= <- <-]. split; [done|]. by apply bool_decide_eq_true in Hin.
  - intros H Hw. destruct (world (map fst (trace s)) (os_makedirs path))
      as [v|e]; [|by destruct (Hw e)].
    injection H as <- <-. split; [done|]. cbn. set_solver.
Qed.

(** C9: once [mkpath] has returned normally and the directory exists, a
    second [mkpath] of the same path returns normally too, makes no call
    (no second [os.makedirs]) and leaves the file system as the first
    call left it; all it does is print that the path already exists. *)
Theorem mkpath_idempotent (world : World) (path : string) (s s1 : state) :
  mkpath world path s = (inr tt, s1) -> path ∈ fs s1 ->
  exists s2,
    mkpath world path s1 = (inr tt, s2) /\
    fs s2 = fs s1 /\ trace s2 = trace s1 /\
    out s2 = ("Path " +:+ path +:+ " already exists! Great job!") :: out s1.
Proof.
  intros _ Hin. eexists. split; [|split; [|split]].
  - unfold mkpath, try_except, bind, os_path_exists.
    rewrite bool_decide_eq_true_2 by done. reflexivity.
  - reflexivity.
  - reflexivity.
  - reflexivity.
Qed.

Lemma mkpath_idempotent_witness :
  let s1 := snd (mkpath world_ok "./models/llama-x/" state0) in
  exists s2,
    mkpath world_ok "./models/llama-x/" s1 = (inr tt, s2) /\
    fs s2 = fs s1 /\ trace s2 = trace s1 /\
    out s2
    = ("Path " +:+ "./models/llama-x/" +:+ " already exists! Great job!")
      :: out s1.
Proof.
  intros s1.
  apply (mkpath_idempotent world_ok "./models/llama-x/" state0 s1).
  - reflexivity.
  - apply (bool_decide_eq_true_1 ("./models/llama-x/" ∈ fs s1)). reflexivity.
Defined.

(** ** Validation of the command line *)

Lemma all_qtypes_in_find (repr_str : string -> string) (name : string)
    (members qtypes : list string) :
  all_qtypes_in repr_str name members qtypes
  = match List.find (fun q => negb (bool_decide (q ∈ members))) qtypes with
    | Some q => inl (Exn ValueError (repr_str q +:+ " is not a valid " +:+ name))
    | None => inr true
    end.
Proof.
  induction qtypes as [|q qs IH]; [done|].
  cbn [all_qtypes_in List.find]. unfold enum_by_value.
  destruct (bool_decide (q ∈ members)) eqn:E; cbn [negb]; [|done].
  by rewrite E.
Qed.

Lemma find_invalid_none (members qtypes : list string) :
  List.find (fun q => negb (bool_decide (q ∈ members))) qtypes = None ->
  forall q, q ∈ qtypes -> q ∈ members.
Proof.
  intros H q Hq. apply list_elem_of_In in Hq.
  pose proof (find_none _ _ H q Hq) as Hn. cbn in Hn.
  apply negb_false_iff, bool_decide_eq_true in Hn. done.
Qed.

Lemma forallb_in_range_false (hybrid_rates : list float) (r : float) :
  r ∈ hybrid_rates -> hybrid_rate_in_range r = false ->
  forallb hybrid_rate_in_range hybrid_rates = false.
Proof.
  intros Hin Hr. destruct (forallb _ _) eqn:E; [|done].
  rewrite forallb_forall in E. apply list_elem_of_In in Hin.
  rewrite (E _ Hin) in Hr. done.
Qed.

(** C6, as the code has it: a qtype outside the platform's set or a hybrid
    rate outside [0,1] makes [convert] raise before any call leaves the
    program and before anything is printed.  For a qtype the [ValueError]
    names the first offending value; for a hybrid rate the
    [AssertionError] has no message. *)
Theorem validation_aborts_before_any_call (str_float : float -> string)
    (repr_str : string -> string) (world : World)
    (model_ids qtypes : list string) (hybrid_rates : list float)
    (optimization : bool) (target : Platform) (s : state) :
  (exists q, q ∈ qtypes /\ q ∉ allowed_qtypes target) \/
  (exists r, r ∈ hybrid_rates /\ hybrid_rate_in_range r = false) ->
  exists e,
    convert str_float repr_str world model_ids qtypes hybrid_rates
      optimization target s = (inl e, s) /\
    match first_invalid_qtype target qtypes with
    | Some q =>
        e = Exn ValueError
              (repr_str q +:+ " is not a valid " +:+ qtypes_enum_name target)
    | None => e = Exn AssertionError ""
    end.
Proof.
  intros H. unfold convert, validate, first_invalid_qtype.
  assert (
    (if String.eqb (Platform_value target) "rk3588" then
       ok <- lift (all_qtypes_in repr_str "QTypesRk3588" QTypesRk3588 qtypes) ;;
       py_assert ok
     else if String.eqb (Platform_value target) "rk3576" then
       ok <- lift (all_qtypes_in repr_str "QTypesRk3576" QTypesRk3576 qtypes) ;;
       py_assert ok
     else ret tt)
    = (ok <- lift (all_qtypes_in repr_str (qtypes_enum_name target)
                     (allowed_qtypes target) qtypes) ;;
       py_assert ok)) as -> by (by destruct target).
  rewrite all_qtypes_in_find.
  destruct (List.find _ qtypes) as [q|] eqn:F.
  - eexists. split; [|reflexivity]. reflexivity.
  - destruct H as [(q & Hq & Hn)|(r & Hr & Hf)].
    + destruct Hn. by eapply find_invalid_none.
    + eexists. split; [|reflexivity].
      unfold bind at 1. cbn.
      by rewrite (forallb_in_range_false _ _ Hr Hf).
Qed.

Lemma validation_aborts_before_any_call_witness :
  exists e,
    convert str_float0 repr_str0 world_ok ["org/llama-x"] ["w8a8"; "w4a16"]
      [0%float] true rk3588 state0 = (inl e, state0) /\
    match first_invalid_qtype rk3588 ["w8a8"; "w4a16"] with
    | Some q =>
        e = Exn ValueError
              (repr_str0 q +:+ " is not a valid " +:+ qtypes_enum_name rk3588)
    | None => e = Exn AssertionError ""
    end.
Proof.
  apply (validation_aborts_before_any_call str_float0 repr_str0 world_ok
           ["org/llama-x"] ["w8a8"; "w4a16"] [0%float] true rk3588 state0).
  left. exists "w4a16". split.
  - apply (bool_decide_eq_true_1 ("w4a16" ∈ ["w8a8"; "w4a16"])). reflexivity.
  - apply (bool_decide_eq_false_1 ("w4a16" ∈ allowed_qtypes rk3588)).
    reflexivity.
Defined.

(** C6, as stated, fails for a hybrid rate: with the rate 2.0 the run stops
    before any call, but the [AssertionError] it raises has an empty
    message, so nothing identifies the offending value. *)
Lemma hybrid_rate_diagnostic_is_empty :
  convert str_float0 repr_str0 world_ok ["org/llama-x"] ["w8a8"] [2%float]
    true rk3588 state0
  = (inl (Exn AssertionError ""), state0).
Proof. vm_compute. reflexivity. Qed.

(** ** Runs at concrete inputs *)

(** C2, at the driver's sentinel: with [lora_id = ""] name resolution
    leaves [lora_name], [lora_dir] and [lorapath] at [None], yet the
    conversion does not skip the LoRA download: it calls
    [snapshot_download] with the empty repository id and no directory
    (the skip tests [lora_id == None], [build_vars] tests [== ""]). *)
Theorem lora_download_not_skipped :
  build_vars scenario_request = inr scenario_pipeline /\
  lora_name scenario_pipeline = PyNone /\
  lora_dir scenario_pipeline = PyNone /\
  lorapath scenario_pipeline = Some PyNone /\
  let run := remote_pipeline_to_local world_ok scenario_pipeline state0 in
  snapshot_download (PyStr "") PyNone ∈ map fst (trace (snd run)) /\
  "Downloading LoRA:  from HuggingFace to None" ∈ out (snd run) /\
  "LoRA is  - skipping download" ∉ out (snd run).
Proof.
  repeat split; try (vm_compute; reflexivity).
  - apply (bool_decide_eq_true_1 (_ ∈ _)). by vm_compute.
  - apply (bool_decide_eq_true_1 (_ ∈ _)). by vm_compute.
  - apply (bool_decide_eq_false_1 (_ ∈ _)). by vm_compute.
Qed.

(** The skip of the LoRA download is dead code: a request [build_vars]
    accepts never has [lora_id == None]. *)
Lemma lora_skip_unreachable (r : Request) (rk : Pipeline) :
  build_vars r = inr rk -> py_eq (lora_id (req rk)) PyNone = false.
Proof.
  unfold build_vars. destruct (split_slash_1_snd (model_id r)); [done|].
  destruct (py_eq (lora_id r) (PyStr "")) eqn:E.
  - intros [= <-]. cbn. by destruct (lora_id r).
  - destruct (lora_id r) as [| | |l] eqn:L; try done.
    destruct (split_slash_1_snd l); [done|]. intros [= <-]. cbn.
    by rewrite L.
Qed.

(** C7, at a rejected token: [login] raises and is caught with the
    warning, then the unguarded [whoami] raises, [login_to_hf] lets that
    exception out and [convert] ends with it before any download. *)
Theorem rejected_login_aborts_convert :
  let run := convert str_float0 repr_str0 world_login_rejected
               ["org/llama-x"] ["w8a8"] [0%float] true rk3588 state0 in
  fst run = inl (Exn (OtherException "HfHubHTTPError") "401 Client Error") /\
  map fst (trace (snd run))
  = [hf_whoami_name (PyStr "hf_token"); hf_login (PyStr "hf_token");
     inquirer_prompt "Please enter your Hugging Face token";
     os_environ_set "HF_HUB_ENABLE_HF_TRANSFER" "1";
     os_environ_get "HOME"] /\
  out (snd run)
  = ["Login failed: Invalid token passed!" +:+ nl
     +:+ "Gated models will be inaccessible, and you will not be able to upload to HuggingFace."].
Proof. repeat split; vm_compute; reflexivity. Qed.

(** C10, at a run of the command: the pipeline has [lora_id = ""] and
    [library_type = "HF"], and still the adapter download is reached:
    [snapshot_download] is called with the empty repository id. *)
Theorem cli_reaches_lora_download :
  let rq := cli_request str_float0 "org/llama-x" "w8a8" 0%float true rk3588 in
  let run := convert str_float0 repr_str0 world_ok ["org/llama-x"] ["w8a8"]
               [0%float] true rk3588 state0 in
  lora_id rq = PyStr "" /\ library_type rq = "HF" /\
  snapshot_download (PyStr "") PyNone ∈ map fst (trace (snd run)).
Proof.
  repeat split; try (vm_compute; reflexivity).
  apply (bool_decide_eq_true_1 (_ ∈ _)). by vm_compute.
Qed.

(** C4, as stated, fails twice.  When the download of the first model
    raises the hub's "repository not found" error, which is no
    [RuntimeError], the loop does not catch it: [convert] ends with that
    error, logs no failure and never starts on the second model.  And
    when a failure is caught, the line logged has the error's message
    only: two different combinations whose load fails leave the very same
    output, so the log does not identify the combination. *)
Lemma batch_aborted_by_download_error :
  (let run := convert str_float0 repr_str0 world_repo_missing
                ["org/a"; "org/b"] ["w8a8"] [0%float] true rk3588 state0 in
   fst run = inl (Exn RepositoryNotFoundError "404 Client Error") /\
   os_environ_get "HOME" ∈ map fst (trace (snd run)) /\
   ~ (auth_check "org/b" ∈ map fst (trace (snd run))) /\
   ~ ("Model conversion failed: 404 Client Error" ∈ out (snd run))) /\
  (let run1 := convert str_float0 repr_str0 world_load_fails ["org/a"]
                 ["w8a8"] [0%float] true rk3588 state0 in
   let run2 := convert str_float0 repr_str0 world_load_fails ["org/a"]
                 ["w8a8_g128"] [0.5%float] true rk3588 state0 in
   fst run1 = inr tt /\ fst run2 = inr tt /\
   head (out (snd run1))
   = Some "Model conversion failed: Failed to load model: 1" /\
   out (snd run1) = out (snd run2)).
Proof.
  split.
  - intros run. split; [vm_compute; reflexivity|]. split; [|split].
    + apply (bool_decide_eq_true_1 (_ ∈ _)). by vm_compute.
    + apply (bool_decide_eq_false_1 (_ ∈ _)). by vm_compute.
    + apply (bool_decide_eq_false_1 (_ ∈ _)). by vm_compute.
  - intros run1 run2.
    split; [|split; [|split]]; vm_compute; reflexivity.
Qed.

(** C5, as stated, fails twice: the export directory has no owner prefix
    ("llama-x-rk3588", not "org-llama-x-rk3588"), and load, build and
    export can all return 0 while no repository URL is recorded, because
    [create_repo] failed and the upload went on to its end. *)
Lemma scenario_path_and_repo_url_differ :
  build_vars scenario_request = inr scenario_pipeline /\
  export_path scenario_pipeline +:+ export_name scenario_pipeline +:+ ".rkllm"
  <> claimed_scenario_path /\
  let r1 := remote_pipeline_to_local world_no_create_repo scenario_pipeline
              state0 in
  let r2 := upload_to_repo world_no_create_repo scenario_hub "llama-x"
              "./models/llama-x/" "./models/llama-x-rk3588/" (snd r1) in
  (exists rk',
     fst r1 = inr rk' /\ model_name rk' = "llama-x" /\
     model_dir rk' = "./models/llama-x/" /\
     export_path rk' = "./models/llama-x-rk3588/") /\
  (load_huggingface (PyStr "./models/llama-x/") PyNone "cpu",
   Returns (PyInt 0)) ∈ trace (snd r1) /\
  (rkllm_build 1 "w8a8" "rk3588" 3 PyNone PyNone, Returns (PyInt 0))
  ∈ trace (snd r1) /\
  head (trace (snd r1)) = Some (export_rkllm scenario_path, Returns (PyInt 0))
  /\
  exists hf, fst r2 = inr hf /\ repo_url hf = None.
Proof.
  split; [reflexivity|]. split; [discriminate|]. intros r1 r2.
  split; [|split; [|split; [|split]]].
  - eexists. split; [vm_compute; reflexivity|].
    split; [|split]; reflexivity.
  - apply (bool_decide_eq_true_1 (_ ∈ _)). by vm_compute.
  - apply (bool_decide_eq_true_1 (_ ∈ _)). by vm_compute.
  - vm_compute. reflexivity.
  - eexists. split; vm_compute; reflexivity.
Qed.

(** ** The driver loop *)

Lemma bind_inr {A B} (m : M A) (k : A -> M B) (s s' : state) (b : B) :
  bind m k s = (inr b, s') ->
  exists a s1, m s = (inr a, s1) /\ k a s1 = (inr b, s').
Proof. unfold bind. destruct (m s) as [[e|a] s1]; [done | eauto]. Qed.

Lemma for_each_app {A} (l1 l2 : list A) (body : A -> M unit) (s : state) :
  for_each (l1 ++ l2) body s = (for_each l1 body ;;; for_each l2 body) s.
Proof.
  revert s. induction l1 as [|x l1 IH]; intros s; [done|].
  cbn [for_each app]. unfold bind.
  destruct (body x s) as [[e|[]] s1]; [done|]. by rewrite IH.
Qed.

Lemma for_each_map {A B} (f : A -> B) (l : list A) (body : B -> M unit)
    (s : state) :
  for_each (map f l) body s = for_each l (fun x => body (f x)) s.
Proof.
  revert s. induction l as [|x l IH]; intros s; [done|].
  cbn [for_each map]. unfold bind.
  by destruct (body (f x) s) as [[e|[]] s1].
Qed.

Lemma for_each_flat_map {A B} (f : A -> list B) (l : list A)
    (body : B -> M unit) (s : state) :
  for_each (flat_map f l) body s = for_each l (fun x => for_each (f x) body) s.
Proof.
  revert s. induction l as [|x l IH]; intros s; [done|].
  cbn [for_each flat_map]. rewrite for_each_app. unfold bind.
  by destruct (for_each (f x) body s) as [[e|[]] s1].
Qed.

Lemma for_each_ext {A} (l : list A) (f g : A -> M unit) (s : state) :
  (forall x s, f x s = g x s) -> for_each l f s = for_each l g s.
Proof.
  intros H. revert s. induction l as [|x l IH]; intros s; [done|].
  cbn [for_each]. unfold bind. rewrite H.
  by destruct (g x s) as [[e|[]] s1].
Qed.

(** X16: The three nested loops run the body over the combinations in order. *)
Lemma convert_as_batch (str_float : float -> string)
    (repr_str : string -> string) (world : World)
    (model_ids qtypes : list string) (hybrid_rates : list float)
    (optimization : bool) (target : Platform) (s : state) :
  convert str_float repr_str world model_ids qtypes hybrid_rates optimization
    target s
  = (validate repr_str qtypes hybrid_rates target ;;;
     for_each (combinations model_ids qtypes hybrid_rates)
       (convert_combination str_float world optimization target)) s.
Proof.
  unfold convert, bind.
  destruct (validate repr_str qtypes hybrid_rates target s) as [[e|[]] s1];
    [done|].
  unfold combinations. rewrite for_each_flat_map.
  apply for_each_ext. intros model s2. rewrite for_each_flat_map.
  apply for_each_ext. intros qtype s3. by rewrite for_each_map.
Qed.

(** C4, as the code has it: a [RuntimeError] raised by the conversion or
    the upload of one combination is caught in the loop and logged as
    "Model conversion failed: <message>", and the loop goes on with the
    remaining combinations. *)
Theorem runtime_error_does_not_stop_batch (str_float : float -> string)
    (world : World) (optimization : bool) (target : Platform)
    (c : string * string * float) (cs : list (string * string * float))
    (s s1 s2 s3 : state) (p : Pipeline * HubHelpers) (v : pyval) (e : exn) :
  prepare str_float world (fst (fst c)) (snd (fst c)) (snd c) optimization
    target s = (inr p, s1) ->
  repo_check world (model_id (req (fst p))) s1 = (inr v, s2) ->
  conversion_and_upload_body world (fst p) (snd p) s2 = (inl e, s3) ->
  is_RuntimeError e = true ->
  for_each (c :: cs) (convert_combination str_float world optimization target)
    s
  = for_each cs (convert_combination str_float world optimization target)
      (logged_failure e s3).
Proof.
  intros Hp Hc Hb He. cbn [for_each].
  unfold bind at 1, convert_combination at 1, convert_one, bind.
  rewrite Hp, Hc. unfold convert_and_upload, try_except.
  unfold conversion_and_upload_body in Hb. rewrite Hb, He. reflexivity.
Qed.

Lemma runtime_error_does_not_stop_batch_witness :
  let body := convert_combination str_float0 world_load_fails true rk3588 in
  exists e s3,
    is_RuntimeError e = true /\
    exn_msg e = "Failed to load model: 1" /\
    for_each [("org/a", "w8a8", 0%float); ("org/b", "w8a8", 0%float)] body
      state0
    = for_each [("org/b", "w8a8", 0%float)] body (logged_failure e s3).
Proof.
  intros body.
  let r1 := eval vm_compute in
    (prepare str_float0 world_load_fails "org/a" "w8a8" 0%float true rk3588
       state0) in
  match r1 with
  | (inr ?p, ?s1) =>
      let r2 := eval vm_compute in
        (repo_check world_load_fails (model_id (req (fst p))) s1) in
      match r2 with
      | (inr ?v, ?s2) =>
          let r3 := eval vm_compute in
            (conversion_and_upload_body world_load_fails (fst p) (snd p)
               s2) in
          match r3 with
          | (inl ?e, ?s3) =>
              exists e, s3; split; [reflexivity|]; split; [reflexivity|];
              apply (runtime_error_does_not_stop_batch str_float0
                       world_load_fails true rk3588
                       ("org/a", "w8a8", 0%float)
                       [("org/b", "w8a8", 0%float)] state0 s1 s2 s3 p v e);
              vm_compute; reflexivity
          end
      end
  end.
Defined.

(** ** What a completed conversion and a completed upload leave behind *)

Ltac peel E := apply bind_inr in E as (? & ? & _ & E); cbv beta in E.

Lemma extern_inr (world : World) (c : call) (s s' : state) (v : pyval) :
  extern world c s = (inr v, s') ->
  world (map fst (trace s)) c = Returns v /\
  trace s' = (c, Returns v) :: trace s /\ out s' = out s.
Proof.
  unfold extern. destruct (world (map fst (trace s)) c); [|done].
  by intros [= <- <-].
Qed.

Lemma print_inr (line : string) (s s' : state) (u : unit) :
  print line s = (inr u, s') -> trace s' = trace s.
Proof. by intros [= _ <-]. Qed.

Lemma getattr_inr {A} (name : string) (a : option A) (s s' : state) (v : A) :
  getattr name a s = (inr v, s') -> a = Some v /\ s' = s.
Proof. destruct a; [by intros [= <- <-] | done]. Qed.

Lemma check_status_inr (step : string) (status : pyval) (s s' : state) :
  check_status step status s = (inr tt, s') ->
  py_eq status (PyInt 0) = true /\ s' = s.
Proof.
  unfold check_status. destruct (py_eq status (PyInt 0)); [|done].
  by intros [= <-].
Qed.

(** A conversion that returns normally has made [export_rkllm] its last
    call, on [export_path] followed by [export_name] and ".rkllm", got
    status 0 from it, and returns the names it was given. *)
Lemma remote_pipeline_to_local_returns (world : World) (rk rk' : Pipeline)
    (s s1 : state) :
  remote_pipeline_to_local world rk s = (inr rk', s1) ->
  (exists v,
     head (trace s1)
     = Some (export_rkllm (export_path rk +:+ export_name rk +:+ ".rkllm"),
             Returns v) /\
     py_eq v (PyInt 0) = true) /\
  model_name rk' = model_name rk /\ model_dir rk' = model_dir rk /\
  export_path rk' = export_path rk /\ export_name rk' = export_name rk.
Proof.
  unfold remote_pipeline_to_local. cbv zeta. intros E.
  do 5 peel E.
  apply bind_inr in E as (rk1 & s6 & Hl & E); cbv beta in E.
  assert (model_name rk1 = model_name rk /\ model_dir rk1 = model_dir rk /\
          export_path rk1 = export_path rk /\
          export_name rk1 = export_name rk) as (Hn & Hd & Hp & He).
  { revert Hl. unfold try_except, bind, print, getattr, ret, raise, extern.
    intros Hl. repeat case_match; by simplify_eq/=. }
  do 9 peel E.
  apply bind_inr in E as (st & s16 & Hx & E); cbv beta in E.
  apply bind_inr in E as ([] & s17 & Hc & E); cbv beta in E.
  apply bind_inr in E as ([] & s18 & Hpr & E); cbv beta in E.
  injection E as <- <-. injection Hpr as <-.
  apply check_status_inr in Hc as [Hz ->].
  apply extern_inr in Hx as (_ & Ht & _).
  rewrite Hn, Hd, Hp, He. repeat split; try done.
  exists st. cbn [trace]. rewrite Ht, <- Hp, <- He. done.
Qed.

(** An upload that returns normally in a world whose [create_repo] answers
    with a URL has recorded that URL. *)
Lemma upload_to_repo_records_url (world : World) (hf hf' : HubHelpers)
    (model import_path export_path : string) (s s' : state) :
  upload_to_repo world hf model import_path export_path s = (inr hf', s') ->
  (forall h id, exists url,
     world h (create_repo id) = Returns url /\ url <> PyNone) ->
  exists url, repo_url hf' = Some url /\ url <> PyNone.
Proof.
  unfold upload_to_repo. intros E Hw.
  do 4 peel E.
  apply bind_inr in E as (hf1 & s5 & Hc & E); cbv beta in E.
  do 4 peel E. injection E as <- _.
  revert Hc. unfold try_except_else, extern.
  match goal with
  | |- context [world ?h (create_repo ?id)] =>
      destruct (Hw h id) as (url & -> & Hurl)
  end.
  unfold bind, print, ret. intros [= <- _]. by exists url.
Qed.

(** C5, as the code has it: for "org/llama-x" on rk3588 with "w8a8",
    hybrid rate 0.0 and optimization on, a conversion that completes has
    exported to "./models/llama-x-rk3588/llama-x-rk3588-w8a8-opt-1-hybrid-ratio-0.0.rkllm"
    (no owner in the directory) with status 0, and when [create_repo]
    answers with a URL a completed upload has recorded that URL, which is
    not [None]. *)
Theorem scenario_export_and_repo_url (world : World) (hf hf' : HubHelpers)
    (rk' : Pipeline) (s s1 s2 : state) :
  remote_pipeline_to_local world scenario_pipeline s = (inr rk', s1) ->
  upload_to_repo world hf (model_name rk') (model_dir rk') (export_path rk')
    s1 = (inr hf', s2) ->
  (forall h id, exists url,
     world h (create_repo id) = Returns url /\ url <> PyNone) ->
  build_vars scenario_request = inr scenario_pipeline /\
  (exists v, head (trace s1) = Some (export_rkllm scenario_path, Returns v) /\
             py_eq v (PyInt 0) = true) /\
  exists url, repo_url hf' = Some url /\ url <> PyNone.
Proof.
  intros E1 E2 Hw. split; [reflexivity|]. split.
  - by destruct (remote_pipeline_to_local_returns _ _ _ _ _ E1) as [? _].
  - by eapply upload_to_repo_records_url.
Qed.

Lemma scenario_export_and_repo_url_witness :
  let r1 := remote_pipeline_to_local world_ok scenario_pipeline state0 in
  let r2 := upload_to_repo world_ok scenario_hub "llama-x" "./models/llama-x/"
              "./models/llama-x-rk3588/" (snd r1) in
  exists hf',
    fst r2 = inr hf' /\
    build_vars scenario_request = inr scenario_pipeline /\
    (exists v,
       head (trace (snd r1)) = Some (export_rkllm scenario_path, Returns v) /\
       py_eq v (PyInt 0) = true) /\
    exists url, repo_url hf' = Some url /\ url <> PyNone.
Proof.
  intros r1 r2.
  let v1 := eval vm_compute in r1 in
  match v1 with
  | (inr ?rk', ?s1) =>
      let v2 := eval vm_compute in r2 in
      match v2 with
      | (inr ?hf', ?s2) =>
          exists hf'; split; [vm_compute; reflexivity|];
          apply (scenario_export_and_repo_url world_ok scenario_hub hf' rk'
                   state0 (snd r1) s2);
          [ vm_compute; reflexivity
          | vm_compute; reflexivity
          | intros h id; eexists; split; [reflexivity | discriminate] ]
      end
  end.
Defined.

(** ** The accessibility check *)

(** C8: whether [auth_check] passes, reports a gated repository or
    reports a missing one, [repo_check] returns normally and the loop body
    goes on with the same conversion and upload of the same objects; the
    state they start from differs only by the recorded reply and the line
    [repo_check] printed. *)
Theorem repo_check_is_advisory (str_float : float -> string) (world : World)
    (optimization : bool) (target : Platform) (model qtype : string)
    (hybrid_rate : float) (s s1 : state) (p : Pipeline * HubHelpers) :
  prepare str_float world model qtype hybrid_rate optimization target s
  = (inr p, s1) ->
  let c := auth_check (model_id (req (fst p))) in
  let rep := world (map fst (trace s1)) c in
  (forall e, rep = Raises e -> is_RepositoryNotFoundError e = true) ->
  exists line,
    convert_one str_float world optimization target model qtype hybrid_rate s
    = convert_and_upload world (fst p) (snd p)
        {| fs := fs s1; trace := (c, rep) :: trace s1;
           out := line :: out s1 |}.
Proof.
  intros Hp c rep Hrep. unfold convert_one, bind. rewrite Hp.
  unfold repo_check, try_except_else, extern. fold c. fold rep.
  destruct rep as [v|e] eqn:E.
  - eexists. reflexivity.
  - rewrite (Hrep e eq_refl). unfold bind, print.
    destruct (is_GatedRepoError e); eexists; reflexivity.
Qed.

Lemma repo_check_is_advisory_witness :
  exists p s1 line,
    prepare str_float0 world_gated "org/llama-x" "w8a8" 0%float true rk3588
      state0 = (inr p, s1) /\
    convert_one str_float0 world_gated true rk3588 "org/llama-x" "w8a8"
      0%float state0
    = convert_and_upload world_gated (fst p) (snd p)
        {| fs := fs s1;
           trace := (auth_check (model_id (req (fst p))),
                     world_gated (map fst (trace s1))
                       (auth_check (model_id (req (fst p))))) :: trace s1;
           out := line :: out s1 |}.
Proof.
  let r := eval vm_compute in
    (prepare str_float0 world_gated "org/llama-x" "w8a8" 0%float true rk3588
       state0) in
  match r with
  | (inr ?p, ?s1) =>
      exists p, s1;
      destruct (repo_check_is_advisory str_float0 world_gated true rk3588
                  "org/llama-x" "w8a8" 0%float state0 s1 p)
        as [line Hl];
      [ vm_compute; reflexivity
      | intros e [= <-]; reflexivity
      | exists line; split; [vm_compute; reflexivity | exact Hl] ]
  end.
Defined.

(** ** Calls and results together *)

Section CallsOnlyAnd.

Context (world : World) (ok : call -> Prop).

Lemma calls_only_and_ret {A} (post : A -> Prop) (a : A) :
  post a -> calls_only_and ok post (ret a).
Proof.
  intros H. apply runs_with_ret. split; [apply all_calls_nil|].
  by intros a' [= <-].
Qed.

Lemma calls_only_and_raise {A} (post : A -> Prop) (e : exn) :
  calls_only_and ok post (raise e).
Proof. apply runs_with_raise. split; [apply all_calls_nil | done]. Qed.

Lemma calls_only_and_any {A} (m : M A) :
  calls_only ok m -> calls_only_and ok (fun _ => True) m.
Proof.
  intros H s r s' E. destruct (H _ _ _ E) as (d & ? & ?). by exists d.
Qed.

Lemma calls_only_and_calls {A} (post : A -> Prop) (m : M A) :
  calls_only_and ok post m -> calls_only ok m.
Proof.
  intros H s r s' E. destruct (H _ _ _ E) as (d & ? & ? & _). by exists d.
Qed.

Lemma calls_only_and_weaken {A} (post post' : A -> Prop) (m : M A) :
  (forall a, post a -> post' a) ->
  calls_only_and ok post m -> calls_only_and ok post' m.
Proof.
  intros Hp H s r s' E. destruct (H _ _ _ E) as (d & ? & ? & ?).
  exists d. eauto.
Qed.

Lemma calls_only_and_bind {A B} (Q : A -> Prop) (post : B -> Prop)
    (m : M A) (k : A -> M B) :
  calls_only_and ok Q m -> (forall a, Q a -> calls_only_and ok post (k a)) ->
  calls_only_and ok post (bind m k).
Proof.
  intros Hm Hk s r s'. unfold bind.
  destruct (m s) as [[e|a] s1] eqn:E;
    destruct (Hm _ _ _ E) as (d1 & T1 & C1 & Q1).
  - intros [= <- <-]. exists d1. by repeat split.
  - intros E2. destruct (Hk a (Q1 a eq_refl) _ _ _ E2) as (d2 & T2 & C2 & P2).
    exists (d2 ++ d1)%list. split; [by rewrite T2, T1, app_assoc|].
    split; [by apply all_calls_app | done].
Qed.

Lemma calls_only_and_try_except {A} (post : A -> Prop) (body : M A)
    (catches : exn -> bool) (handler : exn -> M A) :
  calls_only_and ok post body ->
  (forall e, calls_only_and ok post (handler e)) ->
  calls_only_and ok post (try_except body catches handler).
Proof.
  intros Hb Hh s r s'. unfold try_except.
  destruct (body s) as [[e|a] s1] eqn:E;
    destruct (Hb _ _ _ E) as (d1 & T1 & C1 & P1).
  - destruct (catches e).
    + intros E2. destruct (Hh e _ _ _ E2) as (d2 & T2 & C2 & P2).
      exists (d2 ++ d1)%list. split; [by rewrite T2, T1, app_assoc|].
      split; [by apply all_calls_app | done].
    + intros [= <- <-]. exists d1. by repeat split.
  - intros [= <- <-]. exists d1. by repeat split.
Qed.

(** The downloads of [remote_pipeline_to_local] leave the configuration
    of the object alone. *)
Lemma same_config_refl (rk : Pipeline) : same_config rk rk.
Proof. by repeat split. Qed.

Lemma same_config_with_modelpath (rk : Pipeline) (v : pyval) :
  same_config (with_modelpath rk v) rk.
Proof. by repeat split. Qed.

Lemma same_config_with_lorapath (rk : Pipeline) (v : pyval) :
  same_config (with_lorapath rk v) rk.
Proof. by repeat split. Qed.

End CallsOnlyAnd.

(** ** The two parts of the conversion *)

(** One step of a proof of [calls_only] outside the sections above. *)
Ltac calls_step side :=
  first
    [ apply calls_only_ret | apply calls_only_raise
    | apply calls_only_print | apply calls_only_os_path_exists
    | apply calls_only_getattr | apply calls_only_hub_getattr
    | apply calls_only_lift | apply calls_only_py_assert
    | apply calls_only_check_status
    | apply calls_only_extern; side
    | apply calls_only_bind; [|intros ?]
    | apply calls_only_try_except; [|intros ?]
    | apply calls_only_try_except_else; [|intros ?|intros ?]
    | apply calls_only_for_each; intros ?
    | match goal with
      | |- calls_only _ (if ?b then _ else _) => destruct b
      end ].

(** A step whose result is not needed, then the rest. *)
Ltac then_step side :=
  eapply (calls_only_and_bind _ (fun _ => True));
  [ apply calls_only_and_any; repeat calls_step side | intros ? _ ].

Lemma calls_only_and_getattr {A} (ok : call -> Prop) (name : string)
    (a : option A) :
  calls_only_and ok (fun v => a = Some v) (getattr name a).
Proof.
  destruct a; [by apply calls_only_and_ret | apply calls_only_and_raise].
Qed.

Lemma bind_assoc {A B C} (m : M A) (k : A -> M B) (h : B -> M C) (s : state) :
  bind (bind m k) h s = bind m (fun a => bind (k a) h) s.
Proof. unfold bind. by destruct (m s) as [[e|a] s1]. Qed.

Lemma bind_ext {A B} (m : M A) (k1 k2 : A -> M B) (s : state) :
  (forall a s', k1 a s' = k2 a s') -> bind m k1 s = bind m k2 s.
Proof.
  intros H. unfold bind. destruct (m s) as [[e|a] s1]; [done | apply H].
Qed.

(** [remote_pipeline_to_local] is its first part followed by its second. *)
Lemma remote_pipeline_to_local_parts (world : World) (rk : Pipeline)
    (s : state) :
  remote_pipeline_to_local world rk s
  = (rk1 <- acquire world rk ;; load_build_export world rk1) s.
Proof.
  unfold remote_pipeline_to_local, acquire. cbv zeta. symmetry.
  do 5 (rewrite bind_assoc; apply bind_ext; intros ? ?; cbv beta).
  reflexivity.
Qed.

Lemma runs_with_ext {A} (m m' : M A)
    (P : list (call * reply) -> exn + A -> Prop) :
  (forall s, m s = m' s) -> runs_with m' P -> runs_with m P.
Proof. intros H Hm s r s' E. rewrite H in E. eauto. Qed.

(** The first part makes directories and downloads, and changes nothing
    else of the object. *)
Lemma acquire_calls_only_and (world : World) (ok : call -> Prop)
    (rk : Pipeline) :
  (forall p, ok (os_makedirs p)) -> (forall a b, ok (snapshot_download a b)) ->
  calls_only_and ok (fun rk1 => same_config rk1 rk) (acquire world rk).
Proof.
  intros Hm Hd. unfold acquire. cbv zeta.
  then_step idtac.
  eapply (calls_only_and_bind _ (fun _ => True));
    [ by apply calls_only_and_any, mkpath_calls_only | intros ? _ ].
  eapply (calls_only_and_bind _ (fun _ => True));
    [ by apply calls_only_and_any, mkpath_calls_only | intros ? _ ].
  then_step idtac. then_step ltac:(apply Hd). intros mp.
  destruct (py_eq _ PyNone).
  - then_step idtac. apply calls_only_and_ret, same_config_with_modelpath.
  - then_step idtac. apply calls_only_and_try_except.
    + then_step ltac:(apply Hd). by apply calls_only_and_ret.
    + intros e. do 2 then_step idtac.
      apply calls_only_and_ret, same_config_with_modelpath.
Qed.

(** A property of the calls and of the result of the second part, on
    every object the first part can return, holds of the conversion. *)
Lemma remote_pipeline_to_local_calls_only_and (world : World)
    (ok : call -> Prop) (post : Pipeline -> Prop) (rk : Pipeline) :
  (forall p, ok (os_makedirs p)) -> (forall a b, ok (snapshot_download a b)) ->
  (forall rk1, same_config rk1 rk ->
     calls_only_and ok post (load_build_export world rk1)) ->
  calls_only_and ok post (remote_pipeline_to_local world rk).
Proof.
  intros Hm Hd Hl.
  eapply runs_with_ext; [apply remote_pipeline_to_local_parts|].
  eapply calls_only_and_bind; [by apply acquire_calls_only_and | exact Hl].
Qed.

Lemma build_vars_fields (r : Request) (rk : Pipeline) :
  build_vars r = inr rk ->
  req rk = r /\ qparams rk = PyNone /\ dataset rk = PyNone /\
  modelpath rk = None /\
  npu_cores rk = (if String.eqb (platform r) "rk3588" then Some 3%nat
                  else if String.eqb (platform r) "rk3576" then Some 2%nat
                  else None) /\
  lorapath rk = (if has_lora r then None else Some PyNone).
Proof.
  unfold build_vars, has_lora.
  destruct (split_slash_1_snd (model_id r)); [done|].
  destruct (py_eq (lora_id r) (PyStr "")).
  - by intros [= <-].
  - destruct (lora_id r) as [| | |l]; try done.
    destruct (split_slash_1_snd l); [done|]. by intros [= <-].
Qed.

(** X1: The build gets the request's optimization level, qtype and platform,
    the platform's core count, and [None] for [extra_qparams] and
    [dataset]: the hybrid rate is no argument of any engine call. *)
Theorem build_call_ignores_hybrid_rate (world : World) (r : Request)
    (rk : Pipeline) (s s' : state) (res : exn + Pipeline)
    (d : list (call * reply)) (c : call) (rep : reply) :
  build_vars r = inr rk ->
  remote_pipeline_to_local world rk s = (res, s') ->
  trace s' = (d ++ trace s)%list -> (c, rep) ∈ d ->
  build_args_of rk c.
Proof.
  intros Hb E T Hin.
  destruct (build_vars_fields _ _ Hb) as (_ & Hq & Hd & _).
  assert (calls_only_and (build_args_of rk) (fun _ => True)
            (remote_pipeline_to_local world rk)) as H.
  { apply remote_pipeline_to_local_calls_only_and; [done | done |].
    intros rk1 (Hr & Hn & Hds & Hqp & _). unfold load_build_export.
    do 5 then_step ltac:(exact I).
    eapply calls_only_and_bind; [apply calls_only_and_getattr|].
    intros cores Hc. apply calls_only_and_any.
    repeat calls_step
      ltac:(first [ exact I
                  | cbn; rewrite Hr, Hds, Hqp, Hq, Hd, <- Hn, Hc;
                    by repeat split ]). }
  destruct (H _ _ _ E) as (d' & T' & Hc & _).
  rewrite T in T'. apply app_inv_tail in T' as ->. by eapply Hc.
Qed.

Lemma build_call_ignores_hybrid_rate_witness :
  let run := remote_pipeline_to_local world_ok scenario_pipeline state0 in
  build_args_of scenario_pipeline
    (rkllm_build 1 "w8a8" "rk3588" 3 PyNone PyNone).
Proof.
  intros run.
  apply (build_call_ignores_hybrid_rate world_ok scenario_request
           scenario_pipeline state0 (snd run) (fst run) (trace (snd run))
           (rkllm_build 1 "w8a8" "rk3588" 3 PyNone PyNone)
           (Returns (PyInt 0))).
  - reflexivity.
  - apply surjective_pairing.
  - symmetry. apply app_nil_r.
  - apply (bool_decide_eq_true_1 (_ ∈ _)). by vm_compute.
Defined.

(** ** Requests the conversion cannot complete *)

(** A first part that returns has downloaded the base model. *)
Lemma acquire_returns_after_download (world : World) (rk rk1 : Pipeline)
    (s s1 : state) :
  acquire world rk s = (inr rk1, s1) ->
  exists mp d1,
    trace s1 = (d1 ++ trace s)%list /\
    (snapshot_download (PyStr (model_id (req rk))) (PyStr (model_dir rk)),
     Returns mp) ∈ d1.
Proof.
  unfold acquire. cbv zeta. intros E.
  apply bind_inr in E as (? & sa & Ta%print_inr & E).
  apply bind_inr in E as (? & sb & Eb & E).
  destruct (mkpath_calls_only world (fun _ => True) _ I _ _ _ Eb)
    as (db & Tb & _).
  apply bind_inr in E as (? & sc & Ec & E).
  destruct (mkpath_calls_only world (fun _ => True) _ I _ _ _ Ec)
    as (dc & Tc & _).
  apply bind_inr in E as (? & sd & Td%print_inr & E).
  apply bind_inr in E as (mp & se & (_ & Te & _)%extern_inr & E).
  match type of E with
  | ?m se = _ =>
      assert (calls_only (fun _ => True) m) as H
        by (destruct (py_eq _ PyNone); repeat calls_step ltac:(exact I))
  end.
  destruct (H _ _ _ E) as (df & Tf & _).
  exists mp,
    (df ++ (snapshot_download (PyStr (model_id (req rk)))
              (PyStr (model_dir rk)), Returns mp) :: dc ++ db)%list.
  split.
  - rewrite Tf, Te, Td, Tc, Tb, Ta. rewrite <- app_assoc. cbn [app].
    by rewrite <- app_assoc.
  - apply elem_of_app. right. by apply elem_of_cons; left.
Qed.

(** X2: With a library type other than "HF" and "GGUF" the conversion never
    calls load, build or export and never returns normally.  When it has
    created the engine object, that was its last call: the base model has
    been downloaded by then, the last line printed is "Model must be of
    type HF (HuggingFace) or GGUF." and the error is the [RuntimeError]
    "Must be something wrong with the selector! Try again!". *)
Theorem unknown_library_type_stops_before_engine (world : World)
    (rk : Pipeline) (s s' : state) (res : exn + Pipeline)
    (d : list (call * reply)) :
  library_type (req rk) <> "HF" -> library_type (req rk) <> "GGUF" ->
  remote_pipeline_to_local world rk s = (res, s') ->
  trace s' = (d ++ trace s)%list ->
  (forall c rep, (c, rep) ∈ d -> engine_step c = None) /\
  (exists e, res = inl e) /\
  (forall v, (RKLLM_new, Returns v) ∈ d ->
     head d = Some (RKLLM_new, Returns v) /\
     (exists mp,
        (snapshot_download (PyStr (model_id (req rk))) (PyStr (model_dir rk)),
         Returns mp) ∈ d) /\
     head (out s') = Some "Model must be of type HF (HuggingFace) or GGUF." /\
     res = inl (Exn RuntimeError
                  "Must be something wrong with the selector! Try again!")).
Proof.
  intros Hhf Hgg E T.
  assert (calls_only_and (fun c => engine_step c = None) (fun _ => False)
            (remote_pipeline_to_local world rk)) as H.
  { apply remote_pipeline_to_local_calls_only_and; [done | done |].
    intros rk1 (Hr & _). unfold load_build_export. rewrite Hr.
    do 3 then_step ltac:(reflexivity).
    eapply (calls_only_and_bind _ (fun _ => False)); [|by intros ? []].
    destruct (String.eqb_spec (library_type (req rk)) "HF"); [done|].
    destruct (String.eqb_spec (library_type (req rk)) "GGUF"); [done|].
    then_step idtac. apply calls_only_and_raise. }
  destruct (H _ _ _ E) as (d' & T' & Hc & Hp).
  rewrite T in T'. apply app_inv_tail in T' as <-. split; [exact Hc|].
  split; [destruct res as [e|a]; [by exists e | destruct (Hp a eq_refl)]|].
  clear H Hc Hp. intros v Hin.
  rewrite remote_pipeline_to_local_parts in E. revert E. unfold bind at 1.
  destruct (acquire world rk s) as [[e|rk1] s1] eqn:Ea.
  - intros [= <- <-].
    destruct (acquire_calls_only_and world makedirs_or_download rk
                ltac:(done) ltac:(done) _ _ _ Ea) as (d1 & T1 & Hc & _).
    rewrite T in T1. apply app_inv_tail in T1 as <-.
    destruct (Hc _ _ Hin).
  - destruct (acquire_calls_only_and world makedirs_or_download rk
                ltac:(done) ltac:(done) _ _ _ Ea) as (d1 & T1 & Hc & Hs).
    destruct (Hs rk1 eq_refl) as (Hr & _).
    destruct (acquire_returns_after_download _ _ _ _ _ Ea)
      as (mp & d1' & T1' & Hmp).
    rewrite T1 in T1'. apply app_inv_tail in T1' as <-.
    unfold load_build_export. rewrite Hr.
    destruct (String.eqb_spec (library_type (req rk)) "HF"); [done|].
    destruct (String.eqb_spec (library_type (req rk)) "GGUF"); [done|].
    unfold bind, print, extern, raise. cbn [trace fs out].
    destruct (world _ import_rkllm_api) as [vi|ei].
    + cbn [trace fs out map fst].
      destruct (world _ RKLLM_new) as [vn|en]; intros [= <- <-];
        cbn [trace out] in T |- *; rewrite T1 in T;
        match type of T with
        | ?a :: ?b :: ?t ++ ?u = _ =>
            change (a :: b :: t ++ u)%list with ((a :: b :: t) ++ u)%list in T
        end;
        apply app_inv_tail in T as <-.
      * apply elem_of_cons in Hin as [[= <-]|Hin].
        2:{ apply elem_of_cons in Hin as [[=]|Hin]. destruct (Hc _ _ Hin). }
        split; [done|]. split; [|done].
        exists mp. by do 2 (apply elem_of_cons; right).
      * apply elem_of_cons in Hin as [[=]|Hin].
        apply elem_of_cons in Hin as [[=]|Hin]. destruct (Hc _ _ Hin).
    + intros [= <- <-]. cbn [trace] in T. rewrite T1 in T.
      match type of T with
      | ?a :: ?t ++ ?u = _ =>
          change (a :: t ++ u)%list with ((a :: t) ++ u)%list in T
      end.
      apply app_inv_tail in T as <-.
      apply elem_of_cons in Hin as [[=]|Hin]. destruct (Hc _ _ Hin).
Qed.

Lemma unknown_library_type_stops_before_engine_witness :
  let run := remote_pipeline_to_local world_ok onnx_pipeline state0 in
  head (trace (snd run)) = Some (RKLLM_new, Returns PyNone) /\
  (exists mp,
     (snapshot_download (PyStr "org/llama-x") (PyStr "./models/llama-x/"),
      Returns mp) ∈ trace (snd run)) /\
  head (out (snd run))
  = Some "Model must be of type HF (HuggingFace) or GGUF." /\
  fst run = inl (Exn RuntimeError
                   "Must be something wrong with the selector! Try again!").
Proof.
  intros run.
  apply (unknown_library_type_stops_before_engine world_ok onnx_pipeline
           state0 (snd run) (fst run) (trace (snd run))).
  - discriminate.
  - discriminate.
  - apply surjective_pairing.
  - symmetry. apply app_nil_r.
  - apply (bool_decide_eq_true_1 (_ ∈ _)). by vm_compute.
Defined.

(** X3: For a platform other than "rk3588" and "rk3576" [build_vars] sets no
    core count, and the conversion, which may download and load the
    model, never calls build or export and never returns normally. *)
Theorem unknown_platform_never_builds (world : World) (r : Request)
    (rk : Pipeline) (s s' : state) (res : exn + Pipeline)
    (d : list (call * reply)) :
  build_vars r = inr rk ->
  platform r <> "rk3588" -> platform r <> "rk3576" ->
  remote_pipeline_to_local world rk s = (res, s') ->
  trace s' = (d ++ trace s)%list ->
  npu_cores rk = None /\
  (forall c rep, (c, rep) ∈ d -> not_build_or_export c) /\
  exists e, res = inl e.
Proof.
  intros Hb H88 H76 E T.
  destruct (build_vars_fields _ _ Hb) as (_ & _ & _ & _ & Hn & _).
  destruct (String.eqb_spec (platform r) "rk3588"); [done|].
  destruct (String.eqb_spec (platform r) "rk3576"); [done|].
  split; [done|].
  assert (calls_only_and not_build_or_export (fun _ => False)
            (remote_pipeline_to_local world rk)) as H.
  { apply remote_pipeline_to_local_calls_only_and; [done | done |].
    intros rk1 (_ & Hn1 & _). unfold load_build_export.
    do 5 then_step ltac:(exact I).
    eapply calls_only_and_bind; [apply calls_only_and_getattr|].
    intros cores Hc. congruence. }
  destruct (H _ _ _ E) as (d' & T' & Hc & Hp).
  rewrite T in T'. apply app_inv_tail in T' as ->. split; [exact Hc|].
  destruct res as [e|a]; [by exists e | destruct (Hp a eq_refl)].
Qed.

Lemma unknown_platform_never_builds_witness :
  exists rk,
    build_vars rk3566_request = inr rk /\
    let run := remote_pipeline_to_local world_ok rk state0 in
    npu_cores rk = None /\
    (forall c rep, (c, rep) ∈ trace (snd run) -> not_build_or_export c) /\
    exists e, fst run = inl e.
Proof.
  let v := eval vm_compute in (build_vars rk3566_request) in
  match v with
  | inr ?rk =>
      exists rk; split; [reflexivity|]; intros run;
      apply (unknown_platform_never_builds world_ok rk3566_request rk state0
               (snd run) (fst run) (trace (snd run)));
      [ reflexivity | discriminate | discriminate
      | apply surjective_pairing | symmetry; apply app_nil_r ]
  end.
Defined.

(** ** One combination of the loop *)

Lemma upload_to_repo_calls_only (world : World) (ok : call -> Prop)
    (hf : HubHelpers) (model import_path export_path : string) :
  (forall c, engine_step c = None -> ok c) ->
  calls_only ok (upload_to_repo world hf model import_path export_path).
Proof.
  intros H. unfold upload_to_repo, build_card.
  repeat calls_step ltac:(by apply H).
Qed.

(** X4: In the body of the loop, an engine step that returns a status other
    than 0 is the last call made for the combination (nothing is
    uploaded), its error is printed as "Model conversion failed: Failed to
    <step> model: <status>", and the body returns normally. *)
Theorem engine_failure_is_logged_and_survived (world : World) (rk : Pipeline)
    (hf : HubHelpers) (s s' : state) (res : exn + unit)
    (d : list (call * reply)) (c : call) (v : pyval) (step : string) :
  convert_and_upload world rk hf s = (res, s') ->
  trace s' = (d ++ trace s)%list ->
  (c, Returns v) ∈ d -> engine_step c = Some step ->
  py_eq v (PyInt 0) = false ->
  head d = Some (c, Returns v) /\ res = inr tt /\
  head (out s')
  = Some ("Model conversion failed: Failed to " +:+ step +:+ " model: "
          +:+ py_str v).
Proof.
  intros E T Hin Hs Hv.
  assert (fails_fast
            (rk1 <- remote_pipeline_to_local world rk ;;
             upload_to_repo world hf (model_name rk1) (model_dir rk1)
               (export_path rk1) ;;;
             ret tt)) as Hff.
  { apply fails_fast_bind; [apply remote_pipeline_to_local_fails_fast|].
    intros rk1. apply fails_fast_engine_free.
    apply calls_only_bind; [by apply upload_to_repo_calls_only|].
    intros _. apply calls_only_ret. }
  revert E. unfold convert_and_upload, try_except.
  match goal with
  | |- context [bind ?m ?k s] => destruct (bind m k s) as [[e|[]] s1] eqn:Eb
  end; destruct (Hff _ _ _ Eb) as (d1 & T1 & Hf).
  - destruct (is_RuntimeError e) eqn:Hre.
    + intros [= <- <-]. cbn [trace] in T. rewrite T1 in T.
      apply app_inv_tail in T as <-.
      destruct (Hf c v step Hin Hs Hv) as [Hh [= ->]]. done.
    + intros [= <- <-]. rewrite T1 in T. apply app_inv_tail in T as <-.
      destruct (Hf c v step Hin Hs Hv) as [Hh [= ->]]. done.
  - intros [= <- <-]. rewrite T1 in T. apply app_inv_tail in T as <-.
    by destruct (Hf c v step Hin Hs Hv) as [Hh ?].
Qed.

Lemma engine_failure_is_logged_and_survived_witness :
  let run := convert_and_upload world_build_fails scenario_pipeline
               scenario_hub state0 in
  head (trace (snd run))
  = Some (rkllm_build 1 "w8a8" "rk3588" 3 PyNone PyNone, Returns (PyInt 1)) /\
  fst run = inr tt /\
  head (out (snd run))
  = Some ("Model conversion failed: Failed to " +:+ "build" +:+ " model: "
          +:+ py_str (PyInt 1)).
Proof.
  intros run.
  apply (engine_failure_is_logged_and_survived world_build_fails
           scenario_pipeline scenario_hub state0 (snd run) (fst run)
           (trace (snd run))
           (rkllm_build 1 "w8a8" "rk3588" 3 PyNone PyNone) (PyInt 1) "build").
  - apply surjective_pairing.
  - symmetry. apply app_nil_r.
  - apply (bool_decide_eq_true_1 (_ ∈ _)). by vm_compute.
  - reflexivity.
  - reflexivity.
Defined.

(** X5: A conversion with a LoRA returns normally only when the LoRA download
    returned: the handler that prints "Downloading LoRA failed. Omitting
    from export." reads the attribute [lorapath], which [build_vars] does
    not set for such a request, so a failed LoRA download ends the
    conversion instead of omitting the adapter. *)
Theorem conversion_with_lora_needs_lora_download (world : World)
    (r : Request) (rk rk' : Pipeline) (s s' : state) :
  build_vars r = inr rk -> has_lora r = true ->
  remote_pipeline_to_local world rk s = (inr rk', s') ->
  exists lp h,
    world h (snapshot_download (lora_id r) (lora_dir rk)) = Returns lp /\
    lorapath rk' = Some lp.
Proof.
  intros Hb Hl E.
  destruct (build_vars_fields _ _ Hb) as (Hr & _ & _ & _ & _ & Hlp).
  rewrite Hl in Hlp.
  pose proof (lora_skip_unreachable _ _ Hb) as Hnone.
  rewrite remote_pipeline_to_local_parts in E.
  apply bind_inr in E as (rk1 & s1 & Ea & E).
  assert (rk' = rk1) as ->.
  { revert E. unfold load_build_export. intros E.
    do 11 peel E. by injection E as <-. }
  revert Ea. unfold acquire. cbv zeta. intros Ea.
  do 4 peel Ea. apply bind_inr in Ea as (mp & s5 & _ & Ea).
  cbn [req with_modelpath lora_dir lorapath] in Ea. rewrite Hnone in Ea.
  apply bind_inr in Ea as ([] & s6 & _ & Ea). revert Ea.
  unfold try_except, bind at 1, extern.
  rewrite Hr.
  destruct (world (map fst (trace s6)) _) as [lp|e] eqn:Hw.
  - intros [= <- _]. by exists lp, (map fst (trace s6)).
  - cbn. unfold bind, print. cbn. rewrite Hlp. done.
Qed.

Lemma conversion_with_lora_needs_lora_download_witness :
  exists rk rk' s',
    build_vars lora_request = inr rk /\
    remote_pipeline_to_local world_ok rk state0 = (inr rk', s') /\
    exists lp h,
      world_ok h (snapshot_download (lora_id lora_request) (lora_dir rk))
      = Returns lp /\
      lorapath rk' = Some lp.
Proof.
  let v := eval vm_compute in (build_vars lora_request) in
  match v with
  | inr ?rk =>
      let w := eval vm_compute in
        (remote_pipeline_to_local world_ok rk state0) in
      match w with
      | (inr ?rk', ?s') =>
          exists rk, rk', s'; split; [reflexivity|];
          split; [vm_compute; reflexivity|];
          apply (conversion_with_lora_needs_lora_download world_ok
                   lora_request rk rk' state0 s');
          [ reflexivity | reflexivity | vm_compute; reflexivity ]
      end
  end.
Defined.

(** X6: An upload that returns normally ended with [upload_folder] of the
    export directory to the repository "<username>/<model>-<platform>-<rkllm
    version>", under the name [whoami] gave at login. *)
Theorem completed_upload_ends_with_upload_folder (world : World)
    (hf hf' : HubHelpers) (model import_path export_path : string)
    (s s' : state) :
  upload_to_repo world hf model import_path export_path s = (inr hf', s') ->
  exists username v,
    hf_username hf = Some username /\
    head (trace s')
    = Some (upload_folder (repo_id_of hf username model) export_path,
            Returns v).
Proof.
  unfold upload_to_repo. intros E.
  do 2 peel E.
  apply bind_inr in E as (username & s3 & Hu & E); cbv beta in E.
  do 5 peel E.
  apply bind_inr in E as (v & s9 & Hx & E); cbv beta in E.
  injection E as _ <-.
  apply extern_inr in Hx as (_ & Ht & _).
  exists username, v. split; [|by rewrite Ht].
  destruct (hf_username hf); [by injection Hu as -> | done].
Qed.

Lemma completed_upload_ends_with_upload_folder_witness :
  exists hf' s' username v,
    upload_to_repo world_ok scenario_hub "llama-x" "./models/llama-x/"
      "./models/llama-x-rk3588/" state0 = (inr hf', s') /\
    hf_username scenario_hub = Some username /\
    head (trace s')
    = Some (upload_folder (repo_id_of scenario_hub username "llama-x")
              "./models/llama-x-rk3588/", Returns v).
Proof.
  let w := eval vm_compute in
    (upload_to_repo world_ok scenario_hub "llama-x" "./models/llama-x/"
       "./models/llama-x-rk3588/" state0) in
  match w with
  | (inr ?hf', ?s') =>
      destruct (completed_upload_ends_with_upload_folder world_ok
                  scenario_hub hf' "llama-x" "./models/llama-x/"
                  "./models/llama-x-rk3588/" state0 s')
        as (username & v & Hu & Hh);
      [ vm_compute; reflexivity
      | exists hf', s', username, v; split; [vm_compute; reflexivity|];
        by split ]
  end.
Defined.

(** ** Validation, names and directories *)

Lemma validate_unfold (repr_str : string -> string) (qtypes : list string)
    (hybrid_rates : list float) (target : Platform) (s : state) :
  validate repr_str qtypes hybrid_rates target s
  = ((ok <- lift (all_qtypes_in repr_str (qtypes_enum_name target)
                    (allowed_qtypes target) qtypes) ;;
      py_assert ok) ;;;
     py_assert (forallb hybrid_rate_in_range hybrid_rates)) s.
Proof. by destruct target. Qed.

Lemma find_invalid_some (members qtypes : list string) (q : string) :
  List.find (fun q => negb (bool_decide (q ∈ members))) qtypes = Some q ->
  q ∈ qtypes /\ q ∉ members.
Proof.
  intros H. apply find_some in H as [Hin Hn]. split.
  - by apply list_elem_of_In.
  - by apply negb_true_iff, bool_decide_eq_false in Hn.
Qed.

(** X7: [convert]'s validation passes, silently, exactly when every qtype is
    one of the platform's and every hybrid rate [r] has [0 <= r <= 1]. *)
Theorem validate_accepts_exactly_valid (repr_str : string -> string)
    (qtypes : list string) (hybrid_rates : list float) (target : Platform)
    (s : state) :
  validate repr_str qtypes hybrid_rates target s = (inr tt, s) <->
  (forall q, q ∈ qtypes -> q ∈ allowed_qtypes target) /\
  (forall r, r ∈ hybrid_rates -> hybrid_rate_in_range r = true).
Proof.
  rewrite validate_unfold, all_qtypes_in_find. unfold bind.
  destruct (List.find _ qtypes) as [q|] eqn:F; cbn.
  - split; [done|]. intros [Hq _].
    apply find_invalid_some in F as [Hin Hn]. by destruct Hn; apply Hq.
  - destruct (forallb hybrid_rate_in_range hybrid_rates) eqn:Hf; cbn.
    + split; [|done]. intros _. split; [by apply find_invalid_none|].
      intros r Hr. rewrite forallb_forall in Hf.
      by apply Hf, list_elem_of_In.
    + split; [done|]. intros [_ Hr].
      assert (forallb hybrid_rate_in_range hybrid_rates = true) as Ht;
        [|congruence].
      apply forallb_forall. intros r Hin. by apply Hr, list_elem_of_In.
Qed.

Lemma split_slash_1_no_slash (s : string) :
  has_slash s = false -> split_slash_1 s = [s].
Proof.
  induction s as [|c t IH]; [done|]. cbn [has_slash split_slash_1].
  destruct (Ascii.eqb c "/"); [done|]. cbn. intros H. by rewrite (IH H).
Qed.

(** Splitting undoes joining owner and name with a slash. *)
Lemma split_slash_1_join (owner name : string) :
  has_slash owner = false ->
  split_slash_1 (owner +:+ "/" +:+ name) = [owner; name].
Proof.
  induction owner as [|c t IH]; [done|]. cbn [has_slash].
  rewrite str_app_cons. cbn [split_slash_1].
  destruct (Ascii.eqb c "/"); [done|]. cbn. intros H. by rewrite (IH H).
Qed.

(** X8: The owner takes no part in the names: the same request for
    "<owner1>/<name>" and for "<owner2>/<name>" resolves to the same model
    directory, export directory and export name. *)
Theorem owner_is_in_no_name (r : Request) (owner1 owner2 name : string)
    (rk1 rk2 : Pipeline) :
  has_slash owner1 = false -> has_slash owner2 = false ->
  build_vars (with_model_id r (owner1 +:+ "/" +:+ name)) = inr rk1 ->
  build_vars (with_model_id r (owner2 +:+ "/" +:+ name)) = inr rk2 ->
  model_name rk1 = name /\ model_name rk2 = name /\
  model_dir rk1 = model_dir rk2 /\ export_path rk1 = export_path rk2 /\
  export_name rk1 = export_name rk2.
Proof.
  intros H1 H2. unfold build_vars, split_slash_1_snd.
  cbn [model_id with_model_id lora_id platform qtype hybrid_rate
       optimization].
  rewrite !split_slash_1_join by done. cbn [lookup list_lookup].
  destruct (py_eq (lora_id r) (PyStr "")).
  - by intros [= <-] [= <-].
  - destruct (lora_id r) as [| | |l]; try done.
    destruct (match split_slash_1 l !! 1%nat with
              | Some t => inr t
              | None => inl _
              end); [done|].
    by intros [= <-] [= <-].
Qed.

Lemma owner_is_in_no_name_witness :
  exists rk1 rk2,
    build_vars (with_model_id scenario_request ("org" +:+ "/" +:+ "llama-x"))
    = inr rk1 /\
    build_vars (with_model_id scenario_request ("fork" +:+ "/" +:+ "llama-x"))
    = inr rk2 /\
    model_name rk1 = "llama-x" /\ model_name rk2 = "llama-x" /\
    model_dir rk1 = model_dir rk2 /\ export_path rk1 = export_path rk2 /\
    export_name rk1 = export_name rk2.
Proof.
  eexists _, _. split; [reflexivity|]. split; [reflexivity|].
  apply (owner_is_in_no_name scenario_request "org" "fork" "llama-x");
    reflexivity.
Defined.

(** X9: A model id without a slash ends the whole command: when the first
    combination's model has none, [convert] raises the [IndexError] of
    [build_vars] after the validation, before any call and before
    anything is printed. *)
Theorem model_without_owner_aborts_convert (str_float : float -> string)
    (repr_str : string -> string) (world : World) (model qtype : string)
    (hybrid_rate : float) (model_ids qtypes : list string)
    (hybrid_rates : list float) (optimization : bool) (target : Platform)
    (s : state) :
  has_slash model = false ->
  validate repr_str (qtype :: qtypes) (hybrid_rate :: hybrid_rates) target s
  = (inr tt, s) ->
  convert str_float repr_str world (model :: model_ids) (qtype :: qtypes)
    (hybrid_rate :: hybrid_rates) optimization target s
  = (inl (Exn IndexError "list index out of range"), s).
Proof.
  intros Hs Hv. unfold convert. unfold bind at 1. rewrite Hv.
  cbn [for_each]. unfold bind, convert_one, prepare, bind, lift, build_vars,
    split_slash_1_snd.
  cbn [model_id cli_request]. by rewrite split_slash_1_no_slash.
Qed.

Lemma model_without_owner_aborts_convert_witness :
  convert str_float0 repr_str0 world_ok ["llama-x"; "org/other"] ["w8a8"]
    [0%float] true rk3588 state0
  = (inl (Exn IndexError "list index out of range"), state0).
Proof.
  apply (model_without_owner_aborts_convert str_float0 repr_str0 world_ok
           "llama-x" "w8a8" 0%float ["org/other"] [] [] true rk3588 state0).
  - reflexivity.
  - vm_compute. reflexivity.
Defined.

(** X10: When [os.makedirs] raises, [mkpath] catches a [RuntimeError] only: it
    then prints its message and returns with the directory still missing;
    any other exception, such as the [OSError] a denied creation raises,
    leaves [mkpath]. *)
Theorem mkpath_catches_runtime_errors_only (world : World) (path : string)
    (s : state) (e : exn) :
  path ∉ fs s ->
  world (map fst (trace s)) (os_makedirs path) = Raises e ->
  mkpath world path s
  = if is_RuntimeError e then
      (inr tt,
       {| fs := fs s; trace := (os_makedirs path, Raises e) :: trace s;
          out := ("Can't create paths for importing and exporting model."
                  +:+ nl +:+ exn_msg e) :: out s |})
    else
      (inl e,
       {| fs := fs s; trace := (os_makedirs path, Raises e) :: trace s;
          out := out s |}).
Proof.
  intros Hin Hw. unfold mkpath, try_except, bind, os_path_exists, extern.
  rewrite bool_decide_eq_false_2 by done. cbn [negb]. rewrite Hw.
  by destruct (is_RuntimeError e).
Qed.

Lemma mkpath_catches_runtime_errors_only_witness :
  mkpath world_no_makedirs "./models/llama-x/" state0
  = (inl (Exn (OtherException "PermissionError")
            "[Errno 13] Permission denied"),
     {| fs := fs state0;
        trace := [(os_makedirs "./models/llama-x/",
                   Raises (Exn (OtherException "PermissionError")
                             "[Errno 13] Permission denied"))];
        out := out state0 |}).
Proof.
  apply (mkpath_catches_runtime_errors_only world_no_makedirs
           "./models/llama-x/" state0
           (Exn (OtherException "PermissionError")
              "[Errno 13] Permission denied")).
  - apply (bool_decide_eq_false_1 (_ ∈ _)). reflexivity.
  - reflexivity.
Defined.

Example failed_lora_download_raises :
  fst (remote_pipeline_to_local world_lora_missing
         {| req := lora_request; npu_cores := Some 3%nat; dataset := PyNone;
            qparams := PyNone; device := "cpu"; model_name := "llama-x";
            model_dir := "./models/llama-x/";
            name_suffix := "rk3588-w8a8-opt-1-hybrid-ratio-0.0";
            lora_name := PyStr "lora-y";
            lora_dir := PyStr "./models/lora-y/"; lorapath := None;
            export_name := "llama-x-lora-y-rk3588-w8a8-opt-1-hybrid-ratio-0.0";
            export_path := "./models/llama-x-lora-y-rk3588/";
            rkllm_version := "1.1.4"; modelpath := None |} state0)
  = inl (Exn AttributeError
           "'RKLLMRemotePipeline' object has no attribute 'lorapath'").
Proof. vm_compute. reflexivity. Qed.

(** ** The hub helpers *)

Lemma HubHelpers_init_calls_only (world : World) (ok : call -> Prop)
    (p m : string) (l : pyval) (q v : string) :
  (forall c, engine_step c = None -> ok c) ->
  calls_only ok (HubHelpers_init world p m l q v).
Proof.
  intros H. unfold HubHelpers_init. repeat calls_step ltac:(by apply H).
Qed.

Lemma login_to_hf_calls_only (world : World) (ok : call -> Prop)
    (hf : HubHelpers) :
  (forall c, engine_step c = None -> ok c) ->
  calls_only ok (login_to_hf world hf).
Proof.
  intros H. unfold login_to_hf. repeat calls_step ltac:(by apply H).
Qed.

Lemma repo_check_calls_only (world : World) (ok : call -> Prop)
    (model : string) :
  (forall c, engine_step c = None -> ok c) ->
  calls_only ok (repo_check world model).
Proof.
  intros H. unfold repo_check. repeat calls_step ltac:(by apply H).
Qed.

(** The calls a run added, from its trace written out. *)
Ltac added_calls T :=
  match type of T with
  | ?a :: ?b :: ?c :: trace ?s = _ =>
      change (a :: b :: c :: trace s) with ([a; b; c] ++ trace s)%list in T
  | ?a :: ?b :: trace ?s = _ =>
      change (a :: b :: trace s) with ([a; b] ++ trace s)%list in T
  | ?a :: trace ?s = _ =>
      change (a :: trace s) with ([a] ++ trace s)%list in T
  end;
  apply app_inv_tail in T; subst.

(** X11: The first call of [login_to_hf] asks for the token, and is made
    once: it reads [$HOME/.cache/huggingface/token] when that file
    exists, and prompts "Please enter your Hugging Face token" when it
    does not.  Every later call is the login or [whoami] with the token
    that call returned, and a login that returns has stored that token and
    the name [whoami] returned for it. *)
Theorem login_takes_cached_token_or_prompts (world : World)
    (hf : HubHelpers) (s s' : state) (res : exn + HubHelpers)
    (d : list (call * reply)) :
  login_to_hf world hf s = (res, s') ->
  trace s' = (d ++ trace s)%list ->
  exists later rep,
    d = (later ++ [(token_source hf s, rep)])%list /\
    (forall c r, (c, r) ∈ later ->
       exists token,
         rep = Returns token /\
         (c = hf_login token \/ c = hf_whoami_name token)) /\
    (forall hf', res = inr hf' ->
       exists token name,
         rep = Returns token /\
         (hf_whoami_name token, Returns name) ∈ later /\
         hf_token hf' = Some token /\ hf_username hf' = Some name).
Proof.
  unfold login_to_hf. cbv zeta.
  unfold bind at 1, os_path_exists. cbv beta iota.
  replace (if bool_decide _ then extern world (file_read _) else _)
    with (extern world (token_source hf s))
    by (unfold token_source; by destruct (bool_decide _)).
  generalize (token_source hf s) as source. intros source.
  unfold bind, try_except_else, extern, print. cbn [trace fs out].
  destruct (world (map fst (trace s)) source) as [token|e] eqn:Hs.
  2:{ intros [= <- <-] T. cbn in T. added_calls T.
      exists [], (Raises e). split; [done|].
      split; [|done]. intros c r Hin. by apply elem_of_nil in Hin. }
  assert (forall (rest : list (call * reply)) c r,
            (forall x, x ∈ rest ->
               fst x = hf_login token \/ fst x = hf_whoami_name token) ->
            (c, r) ∈ rest ->
            exists token',
              Returns token = Returns token' /\
              (c = hf_login token' \/ c = hf_whoami_name token')) as Hrest.
  { intros rest c r H Hin. exists token. split; [done|]. apply (H _ Hin). }
  cbn [map fst].
  destruct (world _ (hf_login token)) as [v|e] eqn:Hl;
    [|destruct (is_Exception e);
      [|intros [= <- <-] T; cbn in T; added_calls T;
        eexists [_], _; split; [done|]; split; [|done];
        intros c r; apply Hrest; intros x [->|[]%elem_of_nil]%elem_of_cons;
        by left]];
    cbn [map fst trace fs out];
    (destruct (world _ (hf_whoami_name token)) as [name|e'] eqn:Hw;
     intros [= <- <-] T; cbn in T; added_calls T;
     eexists [_; _], _; (split; [done|]); split;
     [ intros c r; apply Hrest;
       intros x [->|[->|[]%elem_of_nil]%elem_of_cons]%elem_of_cons;
       cbn; auto
     | intros hf' [= <-]; exists token, name;
       split; [done|]; split; [by apply elem_of_cons; left | done]
     | intros c r; apply Hrest;
       intros x [->|[->|[]%elem_of_nil]%elem_of_cons]%elem_of_cons;
       cbn; auto
     | done ]).
Qed.

Lemma login_takes_cached_token_or_prompts_witness :
  let run := login_to_hf world_ok scenario_hub state_cached in
  token_source scenario_hub state_cached
  = file_read "/root/.cache/huggingface/token" /\
  exists later rep,
    trace (snd run)
    = (later ++ [(token_source scenario_hub state_cached, rep)])%list /\
    (forall c r, (c, r) ∈ later ->
       exists token,
         rep = Returns token /\
         (c = hf_login token \/ c = hf_whoami_name token)) /\
    (forall hf', fst run = inr hf' ->
       exists token name,
         rep = Returns token /\
         (hf_whoami_name token, Returns name) ∈ later /\
         hf_token hf' = Some token /\ hf_username hf' = Some name).
Proof.
  intros run. split; [vm_compute; reflexivity|].
  apply (login_takes_cached_token_or_prompts world_ok scenario_hub
           state_cached (snd run) (fst run) (trace (snd run))).
  - apply surjective_pairing.
  - symmetry. apply app_nil_r.
Defined.



(** ** The command line never takes the GGUF branch *)

Lemma calls_only_and_lift {A} (ok : call -> Prop) (r : exn + A) :
  calls_only_and ok (fun a => r = inr a) (lift r).
Proof.
  destruct r; [apply calls_only_and_raise | by apply calls_only_and_ret].
Qed.

Lemma not_load_gguf_of_engine_free (c : call) :
  engine_step c = None -> not_load_gguf c.
Proof. by destruct c. Qed.

(** X13: Whatever the arguments of the command and the answers of the world,
    [convert] never calls [load_gguf]: every pipeline it builds has
    [library_type = "HF"]. *)
Theorem convert_never_loads_gguf (str_float : float -> string)
    (repr_str : string -> string) (world : World)
    (model_ids qtypes : list string) (hybrid_rates : list float)
    (optimization : bool) (target : Platform) (s s' : state)
    (res : exn + unit) (d : list (call * reply)) (c : call) (rep : reply) :
  convert str_float repr_str world model_ids qtypes hybrid_rates optimization
    target s = (res, s') ->
  trace s' = (d ++ trace s)%list -> (c, rep) ∈ d ->
  not_load_gguf c.
Proof.
  intros E T Hin.
  assert (calls_only not_load_gguf
            (convert str_float repr_str world model_ids qtypes hybrid_rates
               optimization target)) as H.
  { unfold convert. apply calls_only_bind.
    { unfold validate. repeat calls_step ltac:(exact I). }
    intros _. do 3 (apply calls_only_for_each; intros ?).
    apply (calls_only_and_calls _ (fun _ => True)). unfold convert_one.
    eapply (calls_only_and_bind _
              (fun p => library_type (req (fst p)) = "HF")).
    { unfold prepare.
      eapply calls_only_and_bind; [apply calls_only_and_lift|].
      intros rk Hrk.
      eapply (calls_only_and_bind _ (fun _ => True)).
      { apply calls_only_and_any, HubHelpers_init_calls_only,
          not_load_gguf_of_engine_free. }
      intros hf _.
      eapply (calls_only_and_bind _ (fun _ => True)).
      { apply calls_only_and_any, login_to_hf_calls_only,
          not_load_gguf_of_engine_free. }
      intros hf' _. apply calls_only_and_ret.
      destruct (build_vars_fields _ _ Hrk) as (Hreq & _). cbn [fst].
      by rewrite Hreq. }
    intros [rk hf] Hlt. cbn [fst snd] in *.
    eapply (calls_only_and_bind _ (fun _ => True)).
    { apply calls_only_and_any, repo_check_calls_only,
        not_load_gguf_of_engine_free. }
    intros _ _. apply calls_only_and_any. unfold convert_and_upload.
    apply calls_only_try_except; [|intros e; apply calls_only_print].
    apply calls_only_bind.
    - apply (calls_only_and_calls _ (fun _ => True)).
      apply remote_pipeline_to_local_calls_only_and; [done | done |].
      intros rk1 (Hr & _). apply calls_only_and_any.
      unfold load_build_export. rewrite Hr, Hlt. cbn [String.eqb Ascii.eqb].
      repeat calls_step ltac:(exact I).
    - intros rk1. apply calls_only_bind; [|intros _; apply calls_only_ret].
      apply upload_to_repo_calls_only, not_load_gguf_of_engine_free. }
  destruct (H _ _ _ E) as (d' & T' & Hc).
  rewrite T in T'. apply app_inv_tail in T' as ->. by eapply Hc.
Qed.

Lemma convert_never_loads_gguf_witness :
  let run := convert str_float0 repr_str0 world_ok ["org/llama-x"] ["w8a8"]
               [0%float] true rk3588 state0 in
  not_load_gguf (load_huggingface (PyStr "./models/llama-x/") PyNone "cpu").
Proof.
  intros run.
  apply (convert_never_loads_gguf str_float0 repr_str0 world_ok
           ["org/llama-x"] ["w8a8"] [0%float] true rk3588 state0 (snd run)
           (fst run) (trace (snd run))
           (load_huggingface (PyStr "./models/llama-x/") PyNone "cpu")
           (Returns (PyInt 0))).
  - apply surjective_pairing.
  - symmetry. apply app_nil_r.
  - apply (bool_decide_eq_true_1 (_ ∈ _)). by vm_compute.
Defined.

(** ** A conversion that completes *)

(** The load of a conversion that got past it: one engine call that
    returned 0, after which only printing happened. *)
Lemma load_step_returns (world : World) (rk : Pipeline) (s s' : state)
    (u : unit) :
  (if String.eqb (library_type (req rk)) "HF" then
     print "Have to load model for each config" ;;;
     mp <- getattr "modelpath" (modelpath rk) ;;
     lp <- getattr "lorapath" (lorapath rk) ;;
     status <- extern world (load_huggingface mp lp (device rk)) ;;
     check_status "load" status ;;;
     print (model_name rk +:+ " loaded successfully!")
   else if String.eqb (library_type (req rk)) "GGUF" then
     print "Have to load model for each config" ;;;
     mp <- getattr "modelpath" (modelpath rk) ;;
     status <- extern world (load_gguf mp) ;;
     check_status "load" status ;;;
     print (model_name rk +:+ " loaded successfully!")
   else
     print "Model must be of type HF (HuggingFace) or GGUF." ;;;
     raise (Exn RuntimeError
              "Must be something wrong with the selector! Try again!")) s
  = (inr u, s') ->
  exists c v,
    trace s' = (c, Returns v) :: trace s /\ engine_step c = Some "load" /\
    py_eq v (PyInt 0) = true.
Proof.
  destruct (String.eqb _ "HF"); [|destruct (String.eqb _ "GGUF")]; intros E.
  - apply bind_inr in E as (? & s1 & T1%print_inr & E).
    apply bind_inr in E as (mp & s2 & [_ ->]%getattr_inr & E).
    apply bind_inr in E as (lp & s3 & [_ ->]%getattr_inr & E).
    apply bind_inr in E as (st & s4 & (_ & Ht & _)%extern_inr & E).
    apply bind_inr in E as ([] & s5 & [Hz ->]%check_status_inr & E).
    apply print_inr in E. eexists _, st. by rewrite E, Ht, T1.
  - apply bind_inr in E as (? & s1 & T1%print_inr & E).
    apply bind_inr in E as (mp & s2 & [_ ->]%getattr_inr & E).
    apply bind_inr in E as (st & s4 & (_ & Ht & _)%extern_inr & E).
    apply bind_inr in E as ([] & s5 & [Hz ->]%check_status_inr & E).
    apply print_inr in E. eexists _, st. by rewrite E, Ht, T1.
  - by apply bind_inr in E as (? & s1 & _ & E).
Qed.

(** X14: A conversion that returns normally has ended with a load, the build
    and the export, in this order, each of which returned status 0; the
    build got the object's parameters and the export its artifact path. *)
Theorem completed_conversion_ran_all_steps (world : World)
    (rk rk' : Pipeline) (s s' : state) :
  remote_pipeline_to_local world rk s = (inr rk', s') ->
  exists load cores v1 v2 v3 earlier,
    trace s'
    = (export_rkllm (export_path rk +:+ export_name rk +:+ ".rkllm"),
       Returns v3)
      :: (rkllm_build (optimization (req rk)) (qtype (req rk))
            (platform (req rk)) cores (qparams rk) (dataset rk), Returns v2)
      :: (load, Returns v1) :: earlier /\
    engine_step load = Some "load" /\ npu_cores rk = Some cores /\
    py_eq v1 (PyInt 0) = true /\ py_eq v2 (PyInt 0) = true /\
    py_eq v3 (PyInt 0) = true.
Proof.
  intros E. rewrite remote_pipeline_to_local_parts in E.
  apply bind_inr in E as (rk1 & s0 & Ha & E).
  destruct (acquire_calls_only_and world (fun _ => True) rk
              ltac:(done) ltac:(done) _ _ _ Ha) as (_ & _ & _ & Hsame).
  destruct (Hsame rk1 eq_refl)
    as (Hr & Hn & Hds & Hq & _ & _ & _ & _ & _ & _ & Hen & Hep & _).
  revert E. unfold load_build_export. intros E.
  apply bind_inr in E as (? & s1 & T1%print_inr & E).
  apply bind_inr in E as (? & s2 & (_ & T2 & _)%extern_inr & E).
  apply bind_inr in E as (? & s3 & (_ & T3 & _)%extern_inr & E).
  apply bind_inr in E as ([] & s4 & Hload & E).
  apply load_step_returns in Hload as (load & v1 & T4 & Hl & Hz1).
  apply bind_inr in E as (? & s5 & T5%print_inr & E).
  apply bind_inr in E as (cores & s6 & [Hc ->]%getattr_inr & E).
  apply bind_inr in E as (v2 & s7 & (_ & T7 & _)%extern_inr & E).
  apply bind_inr in E as ([] & s8 & [Hz2 ->]%check_status_inr & E).
  apply bind_inr in E as (? & s9 & T9%print_inr & E).
  apply bind_inr in E as (v3 & s10 & (_ & T10 & _)%extern_inr & E).
  apply bind_inr in E as ([] & s11 & [Hz3 ->]%check_status_inr & E).
  apply bind_inr in E as (? & s12 & T12%print_inr & E).
  injection E as _ <-.
  exists load, cores, v1, v2, v3, (trace s3).
  rewrite T12, T10, T9, T7, T5, T4, Hr, Hds, Hq, Hen, Hep.
  repeat split; try done. by rewrite <- Hn.
Qed.

Lemma completed_conversion_ran_all_steps_witness :
  exists rk' s',
    remote_pipeline_to_local world_ok scenario_pipeline state0
    = (inr rk', s') /\
    exists load cores v1 v2 v3 earlier,
      trace s'
      = (export_rkllm (export_path scenario_pipeline
                       +:+ export_name scenario_pipeline +:+ ".rkllm"),
         Returns v3)
        :: (rkllm_build (optimization (req scenario_pipeline))
              (qtype (req scenario_pipeline))
              (platform (req scenario_pipeline)) cores
              (qparams scenario_pipeline) (dataset scenario_pipeline),
            Returns v2)
        :: (load, Returns v1) :: earlier /\
      engine_step load = Some "load" /\
      npu_cores scenario_pipeline = Some cores /\
      py_eq v1 (PyInt 0) = true /\ py_eq v2 (PyInt 0) = true /\
      py_eq v3 (PyInt 0) = true.
Proof.
  let w := eval vm_compute in
    (remote_pipeline_to_local world_ok scenario_pipeline state0) in
  match w with
  | (inr ?rk', ?s') =>
      exists rk', s'; split; [vm_compute; reflexivity|];
      apply (completed_conversion_ran_all_steps world_ok scenario_pipeline
               rk' state0 s');
      vm_compute; reflexivity
  end.
Defined.

Lemma mkpath_leaves_path_witness :
  let run := mkpath world_ok "./models/llama-x/" state0 in
  fst run = inr tt /\ "./models/llama-x/" ∈ fs (snd run).
Proof.
  intros run.
  apply (mkpath_leaves_path world_ok "./models/llama-x/" state0 (snd run)
           (fst run)).
  - apply surjective_pairing.
  - intros e. discriminate.
Defined.

(** ** The outcome of the accessibility check changes no call *)

Section SameRun.

Context (w1 w2 : World).
Hypothesis Hagree : agree_except_auth_check w1 w2.

Lemma same_run_ret {A} (a : A) : same_run (ret a) (ret a).
Proof. by intros s1 s2 H. Qed.

Lemma same_run_raise {A} (e : exn) : same_run (@raise A e) (raise e).
Proof. by intros s1 s2 H. Qed.

Lemma same_run_print (line : string) : same_run (print line) (print line).
Proof. by intros s1 s2 H. Qed.

Lemma same_run_getattr {A} (name : string) (a : option A) :
  same_run (getattr name a) (getattr name a).
Proof. destruct a; [apply same_run_ret | apply same_run_raise]. Qed.

Lemma same_run_hub_getattr {A} (name : string) (a : option A) :
  same_run (hub_getattr name a) (hub_getattr name a).
Proof. destruct a; [apply same_run_ret | apply same_run_raise]. Qed.

Lemma same_run_lift {A} (r : exn + A) : same_run (lift r) (lift r).
Proof. destruct r; [apply same_run_raise | apply same_run_ret]. Qed.

Lemma same_run_py_assert (cond : bool) :
  same_run (py_assert cond) (py_assert cond).
Proof. destruct cond; [apply same_run_ret | apply same_run_raise]. Qed.

Lemma same_run_check_status (step : string) (status : pyval) :
  same_run (check_status step status) (check_status step status).
Proof.
  unfold check_status.
  destruct (negb _); [apply same_run_raise | apply same_run_ret].
Qed.

Lemma same_run_os_path_exists (path : string) :
  same_run (os_path_exists path) (os_path_exists path).
Proof. intros s1 s2 [Hf Ht]. unfold os_path_exists. cbn. by rewrite Hf. Qed.

Lemma same_run_extern (c : call) :
  (forall m, c <> auth_check m) -> same_run (extern w1 c) (extern w2 c).
Proof.
  intros Hc s1 s2 [Hf Ht]. unfold extern.
  rewrite Ht, (Hagree _ _ Hc), Hf.
  destruct (w2 (map fst (trace s2)) c);
    (split; [done|]; split; cbn; [done | by f_equal]).
Qed.

Lemma same_run_bind {A B} (m1 m2 : M A) (k1 k2 : A -> M B) :
  same_run m1 m2 -> (forall a, same_run (k1 a) (k2 a)) ->
  same_run (bind m1 k1) (bind m2 k2).
Proof.
  intros Hm Hk s1 s2 H. unfold bind.
  destruct (Hm s1 s2 H) as [Hr Hs].
  destruct (m1 s1) as [[e1|a1] t1], (m2 s2) as [[e2|a2] t2];
    cbn in Hr, Hs; simplify_eq; [done|]. by apply Hk.
Qed.

Lemma same_run_bind_returning {A B} (m1 m2 : M A) (k1 k2 : M B) :
  same_run_returning m1 m2 -> same_run k1 k2 ->
  same_run (m1 ;;; k1) (m2 ;;; k2).
Proof.
  intros Hm Hk s1 s2 H. unfold bind.
  destruct (Hm s1 s2 H) as [(a1 & a2 & Hr1 & Hr2) Hs].
  destruct (m1 s1) as [[?|?] t1], (m2 s2) as [[?|?] t2];
    cbn in Hr1, Hr2, Hs; simplify_eq. by apply Hk.
Qed.

Lemma same_run_try_except {A} (b1 b2 : M A) (catches : exn -> bool)
    (h1 h2 : exn -> M A) :
  same_run b1 b2 -> (forall e, same_run (h1 e) (h2 e)) ->
  same_run (try_except b1 catches h1) (try_except b2 catches h2).
Proof.
  intros Hb Hh s1 s2 H. unfold try_except.
  destruct (Hb s1 s2 H) as [Hr Hs].
  destruct (b1 s1) as [[e1|a1] t1], (b2 s2) as [[e2|a2] t2];
    cbn in Hr, Hs; simplify_eq; [|done].
  destruct (catches e2); [by apply Hh | done].
Qed.

Lemma same_run_try_except_else {A B} (b1 b2 : M A) (catches : exn -> bool)
    (h1 h2 : exn -> M B) (o1 o2 : A -> M B) :
  same_run b1 b2 -> (forall e, same_run (h1 e) (h2 e)) ->
  (forall a, same_run (o1 a) (o2 a)) ->
  same_run (try_except_else b1 catches h1 o1)
    (try_except_else b2 catches h2 o2).
Proof.
  intros Hb Hh Ho s1 s2 H. unfold try_except_else.
  destruct (Hb s1 s2 H) as [Hr Hs].
  destruct (b1 s1) as [[e1|a1] t1], (b2 s2) as [[e2|a2] t2];
    cbn in Hr, Hs; simplify_eq; [|by apply Ho].
  destruct (catches e2); [by apply Hh | done].
Qed.

Lemma same_run_for_each {A} (l : list A) (f1 f2 : A -> M unit) :
  (forall x, same_run (f1 x) (f2 x)) ->
  same_run (for_each l f1) (for_each l f2).
Proof.
  intros H. induction l as [|x l IH]; [apply same_run_ret|].
  apply same_run_bind; [apply H | intros _; apply IH].
Qed.

Ltac same_run_step :=
  first
    [ apply same_run_ret | apply same_run_raise | apply same_run_print
    | apply same_run_getattr | apply same_run_hub_getattr
    | apply same_run_lift | apply same_run_py_assert
    | apply same_run_check_status | apply same_run_os_path_exists
    | apply same_run_extern; discriminate
    | apply same_run_bind; [|intros ?]
    | apply same_run_try_except; [|intros ?]
    | apply same_run_try_except_else; [|intros ?|intros ?]
    | apply same_run_for_each; intros ?
    | match goal with
      | |- same_run (if ?b then _ else _) (if ?b then _ else _) => destruct b
      end ].

Lemma same_run_mkpath (path : string) :
  same_run (mkpath w1 path) (mkpath w2 path).
Proof. unfold mkpath. repeat same_run_step. Qed.

Lemma same_run_remote_pipeline_to_local (rk : Pipeline) :
  same_run (remote_pipeline_to_local w1 rk) (remote_pipeline_to_local w2 rk).
Proof.
  unfold remote_pipeline_to_local. cbv zeta.
  repeat first [ apply same_run_mkpath | same_run_step ].
Qed.

Lemma same_run_upload_to_repo (hf : HubHelpers) (model ip ep : string) :
  same_run (upload_to_repo w1 hf model ip ep) (upload_to_repo w2 hf model ip ep).
Proof. unfold upload_to_repo, build_card. repeat same_run_step. Qed.

Lemma same_run_convert_and_upload (rk : Pipeline) (hf : HubHelpers) :
  same_run (convert_and_upload w1 rk hf) (convert_and_upload w2 rk hf).
Proof.
  unfold convert_and_upload.
  repeat first [ apply same_run_remote_pipeline_to_local
               | apply same_run_upload_to_repo | same_run_step ].
Qed.

Lemma same_run_prepare (str_float : float -> string) (model qtype : string)
    (hybrid_rate : float) (optimization : bool) (target : Platform) :
  same_run (prepare str_float w1 model qtype hybrid_rate optimization target)
    (prepare str_float w2 model qtype hybrid_rate optimization target).
Proof.
  unfold prepare, HubHelpers_init, login_to_hf. cbv zeta.
  repeat same_run_step.
Qed.

Hypothesis Hadv1 : advisory_outcomes w1.
Hypothesis Hadv2 : advisory_outcomes w2.

(** Under the three outcomes [repo_check] returns in both worlds, having
    made the same call. *)
Lemma same_run_repo_check (model : string) :
  same_run_returning (repo_check w1 model) (repo_check w2 model).
Proof.
  intros s1 s2 [Hf Ht]. unfold repo_check, try_except_else, extern.
  rewrite Ht.
  destruct (w1 (map fst (trace s2)) (auth_check model)) as [v1|e1] eqn:E1;
    destruct (w2 (map fst (trace s2)) (auth_check model)) as [v2|e2] eqn:E2;
    try rewrite (Hadv1 _ _ _ E1); try rewrite (Hadv2 _ _ _ E2);
    try destruct (is_GatedRepoError e1); try destruct (is_GatedRepoError e2);
    cbn; (split; [by eexists _, _ | split; cbn; [done | by f_equal]]).
Qed.

Lemma same_run_convert (str_float : float -> string)
    (repr_str : string -> string) (model_ids qtypes : list string)
    (hybrid_rates : list float) (optimization : bool) (target : Platform) :
  same_run
    (convert str_float repr_str w1 model_ids qtypes hybrid_rates optimization
       target)
    (convert str_float repr_str w2 model_ids qtypes hybrid_rates optimization
       target).
Proof.
  unfold convert. apply same_run_bind.
  { unfold validate. repeat same_run_step. }
  intros _. do 3 (apply same_run_for_each; intros ?).
  unfold convert_one. apply same_run_bind; [apply same_run_prepare|].
  intros p. apply same_run_bind_returning;
    [apply same_run_repo_check | apply same_run_convert_and_upload].
Qed.

End SameRun.

(** X15: Two worlds that differ only in how [auth_check] answers, each time
    with one of the three outcomes [repo_check] handles, make [convert] end
    with the same result, the same paths and the same sequence of calls:
    the outcome of the check changes nothing but what is printed. *)
Theorem repo_check_outcome_changes_no_call (w1 w2 : World)
    (str_float : float -> string) (repr_str : string -> string)
    (model_ids qtypes : list string) (hybrid_rates : list float)
    (optimization : bool) (target : Platform) (s : state) :
  agree_except_auth_check w1 w2 ->
  advisory_outcomes w1 -> advisory_outcomes w2 ->
  let run1 := convert str_float repr_str w1 model_ids qtypes hybrid_rates
                optimization target s in
  let run2 := convert str_float repr_str w2 model_ids qtypes hybrid_rates
                optimization target s in
  fst run1 = fst run2 /\ fs (snd run1) = fs (snd run2) /\
  map fst (trace (snd run1)) = map fst (trace (snd run2)).
Proof.
  intros Ha H1 H2 run1 run2.
  destruct (same_run_convert w1 w2 Ha H1 H2 str_float repr_str model_ids
              qtypes hybrid_rates optimization target s s)
    as (Hr & Hf & Ht); [by split|]. done.
Qed.

Lemma repo_check_outcome_changes_no_call_witness :
  let run1 := convert str_float0 repr_str0 world_ok ["org/llama-x"] ["w8a8"]
                [0%float] true rk3588 state0 in
  let run2 := convert str_float0 repr_str0 world_gated ["org/llama-x"]
                ["w8a8"] [0%float] true rk3588 state0 in
  fst run1 = fst run2 /\ fs (snd run1) = fs (snd run2) /\
  map fst (trace (snd run1)) = map fst (trace (snd run2)).
Proof.
  apply (repo_check_outcome_changes_no_call world_ok world_gated str_float0
           repr_str0 ["org/llama-x"] ["w8a8"] [0%float] true rk3588 state0).
  - intros h c Hc. destruct c; try reflexivity. by destruct (Hc model).
  - intros h m e. discriminate.
  - intros h m e [= <-]. reflexivity.
Defined.
